(** * S3 image server: cached listings over an object store

    Shallow embedding of the two server programs of the repository:
    - [Direct] is [server.js], which lists the bucket on every request;
    - [Cached] is the second program, which keeps [cachedImages] and
      [cachedFolders] in memory and refreshes them in the background.

    Both share the start-up check of the environment, [listObjects] and the
    mapping from the store's [Contents] to [{key, url}] entries.

    Scope.  Express routing, helmet, cors and the rate limiter sit in front of
    the handlers and are not modelled: an event of the model is a request that
    has reached its handler, a timer callback, or the settlement of a pending
    store call.  JavaScript runs each of these to completion before the next
    one starts, so one event is one atomic step. *)

From stdpp Require Import base strings gmap list.
From Stdlib Require Import Decimal DecimalString.


(** ** JavaScript values the programs rely on *)

Module Js.

(** [process.env] maps names to strings; an unset name reads [undefined]. *)
Abbreviation Env := (gmap string string).

(** [!process.env[key]]: [undefined] and the empty string are falsy. *)
Definition falsy (v : option string) : bool :=
  match v with
  | None => true
  | Some s => bool_decide (s = "")
  end.

(** [a || b] on an optional string. *)
Definition or_else (v : option string) (d : string) : string :=
  match v with
  | Some s => if bool_decide (s = "") then d else s
  | None => d
  end.

(** [`${v}`]: an [undefined] value prints as the word undefined. *)
Definition template (v : option string) : string :=
  match v with
  | Some s => s
  | None => "undefined"
  end.

(** Property names every object literal inherits from [Object.prototype].
    Reading one of them on [{}] yields a function (or, for [__proto__], the
    prototype object): a truthy value that is not an array. *)
Definition objectPrototypeNames : list string :=
  [ "constructor"; "__defineGetter__"; "__defineSetter__"; "hasOwnProperty";
    "__lookupGetter__"; "__lookupSetter__"; "isPrototypeOf";
    "propertyIsEnumerable"; "toString"; "valueOf"; "__proto__";
    "toLocaleString" ].

Definition inherited (name : string) : bool :=
  bool_decide (name ∈ objectPrototypeNames).

(** Result of [obj[name]] for an object literal used as a map to arrays. *)
Inductive Lookup (A : Type) : Type :=
| Own (v : A)                 (* an own property: the stored array *)
| Inherited (name : string)   (* a member of Object.prototype *)
| Undefined.
Arguments Own {A} v.
Arguments Inherited {A} name.
Arguments Undefined {A}.

Definition get {A} (obj : gmap string A) (name : string) : Lookup A :=
  match obj !! name with
  | Some v => Own v
  | None => if inherited name then Inherited name else Undefined
  end.

(** [obj[name] = v].  Every name becomes an own property, except
    [__proto__]: assigning to it runs the prototype's setter and creates no
    own property.  The change of prototype itself is not modelled; the cached
    server never makes that assignment ([plainNames_run] below). *)
Definition set {A} (obj : gmap string A) (name : string) (v : A) : gmap string A :=
  if bool_decide (name = "__proto__") then obj else <[name := v]> obj.

(** [!obj[name]]: arrays, functions and objects are all truthy. *)
Definition absent {A} (r : Lookup A) : bool :=
  match r with
  | Undefined => true
  | _ => false
  end.

End Js.

(** ** The object store as the programs see it *)

Module S3.

(** One element of [data.Contents]; the programs read only [Key]. *)
Record Object := { Key : string }.

(** Input of [ListObjectsV2Command]. *)
Record ListInput := {
  Bucket : option string;
  Prefix : string;
  MaxKeys : nat;
  ContinuationToken : option string
}.

(** Output of a list call.  [Contents] is missing when no key matches. *)
Record ListOutput := {
  Contents : option (list Object);
  IsTruncated : bool;
  NextContinuationToken : option string
}.

(** The error a rejected call carries; its content is only logged. *)
Record Error := { errorName : string }.

(** How the promise of [s3.send] settles. *)
Inductive Reply :=
| Resolved (data : ListOutput)
| Rejected (err : Error).

Abbreviation Store := (ListInput → Reply).

End S3.

(** ** Console output *)

Inductive LogLine :=
| MissingEnvironmentVariable (name : string)
    (* console.error(`Missing environment variable: ${key}`) *)
| S3Error (err : S3.Error)
    (* console.error("S3 Error:", err) *)
| CachedImagesCount (n : nat)
    (* console.log(`Cached ${cachedImages.length} images`) *)
| CachedFolderCount (n : nat) (folder : string)
    (* console.log(`Cached ${n} images for folder "${folder}"`) *)
| FailedToRefreshImages (err : S3.Error)
    (* console.error("Failed to refresh S3 images:", err) *)
| FailedToRefreshFolder (folder : string) (err : S3.Error)
    (* console.error(`Failed to refresh folder "${folder}":`, err) *)
| ServerError (err : S3.Error).
    (* console.error("Server error:", err) *)

(** ** Code shared by both programs *)

Definition requiredEnv : list string :=
  [ "AWS_BUCKET"; "AWS_REGION"; "AWS_ACCESS_KEY"; "AWS_SECRET_KEY" ].

(** [requiredEnv.forEach]: the first name whose value is falsy, if any;
    [process.exit(1)] stops the loop there. *)
Definition firstMissing (env : Js.Env) : option string :=
  List.find (λ name, Js.falsy (env !! name)) requiredEnv.

(** Arguments of [listObjects]; a missing property takes its default. *)
Record ListArgs := {
  argBucket : option string;
  argPrefix : option string;
  argMaxKeys : option nat;
  argContinuationToken : option string
}.

(** [new ListObjectsV2Command({ Bucket, Prefix, MaxKeys, ContinuationToken })]
    with [Prefix = ""] and [MaxKeys = 1000] as defaults. *)
Definition listObjectsCommand (a : ListArgs) : S3.ListInput :=
  {| S3.Bucket := argBucket a;
     S3.Prefix := default "" (argPrefix a);
     S3.MaxKeys := default 1000 (argMaxKeys a);
     S3.ContinuationToken := argContinuationToken a |}.

(** What [listObjects] does once [s3.send] has settled: hand the data back,
    or log the error and throw it again. *)
Definition listObjectsSettle (r : S3.Reply) : S3.Reply * list LogLine :=
  match r with
  | S3.Resolved data => (S3.Resolved data, [])
  | S3.Rejected err => (S3.Rejected err, [S3Error err])
  end.

(** The externally visible [{ key, url }] pair. *)
Record Entry := { key : string; url : string }.

Global Instance Entry_eq_dec : EqDecision Entry.
Proof. solve_decision. Defined.

(** [`https://${AWS_BUCKET}.s3.${AWS_REGION}.amazonaws.com/${file.Key}`] *)
Definition objectUrl (env : Js.Env) (k : string) : string :=
  "https://" +:+ Js.template (env !! "AWS_BUCKET") +:+ ".s3."
    +:+ Js.template (env !! "AWS_REGION") +:+ ".amazonaws.com/" +:+ k.

Definition toEntry (env : Js.Env) (file : S3.Object) : Entry :=
  {| key := S3.Key file; url := objectUrl env (S3.Key file) |}.

(** [data.Contents?.map(...) || []] *)
Definition toEntries (env : Js.Env) (data : S3.ListOutput) : list Entry :=
  match S3.Contents data with
  | Some files => map (toEntry env) files
  | None => []
  end.

(** The call each caller makes: [{ Bucket: process.env.AWS_BUCKET }], plus
    [Prefix: `${folder}/`] for a folder. *)
Definition bucketArgs (env : Js.Env) : ListArgs :=
  {| argBucket := env !! "AWS_BUCKET"; argPrefix := None;
     argMaxKeys := None; argContinuationToken := None |}.

Definition folderArgs (env : Js.Env) (folder : string) : ListArgs :=
  {| argBucket := env !! "AWS_BUCKET"; argPrefix := Some (folder +:+ "/");
     argMaxKeys := None; argContinuationToken := None |}.

(** ** HTTP responses *)

Inductive Body :=
| JsonEntries (l : list Entry)       (* res.json(array of entries) *)
| JsonMessage (message : string)     (* res.json({ message }) *)
| JsonError (error : string)         (* res.json({ error }) *)
| JsonPrototypeMember (name : string).
    (* res.json of a member of Object.prototype: never a JSON array *)

Record Response := { status : nat; body : Body }.

Definition ok (b : Body) : Response := {| status := 200; body := b |}.

(** The final error middleware. *)
Definition errorMiddleware (err : S3.Error) : Response * list LogLine :=
  ({| status := 500; body := JsonError "Internal server error" |},
   [ServerError err]).

(** What a piece of code does, in order: store calls it issues, lines it
    logs, the response it sends. *)
Inductive Action :=
| Send (req : S3.ListInput)
| Log (l : LogLine)
| Respond (r : Response).

(** [listObjects] against a store that answers at once: the call issued and
    the lines logged, then the settled promise. *)
Definition listObjects (send : S3.Store) (a : ListArgs) : list Action * S3.Reply :=
  let cmd := listObjectsCommand a in
  let '(r, logs) := listObjectsSettle (send cmd) in
  (Send cmd :: map Log logs, r).

(** ** Start-up script *)

(** [process.env.PORT || 5000]: the text from the environment or the number. *)
Inductive Port :=
| PortText (s : string)
| PortNumber (n : N).

Definition listenPort (env : Js.Env) : Port :=
  match env !! "PORT" with
  | Some s => if bool_decide (s = "") then PortNumber 5000%N else PortText s
  | None => PortNumber 5000%N
  end.

Inductive TimerCallback :=
| RefreshImagesCallback    (* setInterval(refreshImages, ...) *)
| RefreshFoldersCallback.  (* setInterval(() => Object.keys(...).forEach(...), ...) *)

(** Top-level statements with an effect outside the module, in order. *)
Inductive Boot :=
| ConsoleError (l : LogLine)
| ProcessExit (code : nat)
| CreateS3Client (region accessKeyId secretAccessKey : option string)
| UseCors (origin : string)
| UseRateLimit (path : string) (windowMs max : N)
| CallRefreshImages
| SetInterval (cb : TimerCallback) (ms : N)
| Listen (port : Port).

Definition createS3Client (env : Js.Env) : Boot :=
  CreateS3Client (env !! "AWS_REGION") (env !! "AWS_ACCESS_KEY")
    (env !! "AWS_SECRET_KEY").

Definition middleware (env : Js.Env) : list Boot :=
  [ UseCors (Js.or_else (env !! "CORS_ORIGIN") "*");
    UseRateLimit "/api/" (60 * 1000)%N 60%N ].

(** ** [server.js]: list the store on every request *)

Module Direct.

Definition boot (env : Js.Env) : list Boot :=
  match firstMissing env with
  | Some name => [ConsoleError (MissingEnvironmentVariable name); ProcessExit 1]
  | None => createS3Client env :: middleware env ++ [Listen (listenPort env)]
  end.

(** The body of both listing handlers: list, map, [res.json(images)].  It
    returns what it did and the error it threw, if it threw. *)
Definition listingBody (env : Js.Env) (send : S3.Store) (a : ListArgs)
    : list Action * option S3.Error :=
  let '(acts, r) := listObjects send a in
  match r with
  | S3.Resolved data =>
      (acts ++ [Respond (ok (JsonEntries (toEntries env data)))], None)
  | S3.Rejected err => (acts, Some err)
  end.

(** [Promise.resolve(fn(req, res, next)).catch(next)]: an error thrown by the
    body goes to [next] and so to the error middleware. *)
Definition asyncHandler (body : list Action * option S3.Error) : list Action :=
  match body with
  | (acts, None) => acts
  | (acts, Some err) =>
      let '(resp, logs) := errorMiddleware err in
      acts ++ map Log logs ++ [Respond resp]
  end.

Definition listing (env : Js.Env) (send : S3.Store) (a : ListArgs) : list Action :=
  asyncHandler (listingBody env send a).

Definition getRoot : list Action :=
  [Respond (ok (JsonMessage "S3 Image Server is Running..."))].

Definition getImages (env : Js.Env) (send : S3.Store) : list Action :=
  listing env send (bucketArgs env).

Definition getFolder (env : Js.Env) (send : S3.Store) (folderPath : string) : list Action :=
  listing env send (folderArgs env folderPath).

End Direct.

(** ** The cached server *)

Module Cached.

Definition boot (env : Js.Env) : list Boot :=
  match firstMissing env with
  | Some name => [ConsoleError (MissingEnvironmentVariable name); ProcessExit 1]
  | None =>
      createS3Client env :: middleware env ++
      [ CallRefreshImages;
        SetInterval RefreshImagesCallback (45 * 1000)%N;
        SetInterval RefreshFoldersCallback (45 * 1000)%N;
        Listen (listenPort env) ]
  end.

(** A refresh suspended at [await s3.send(command)]. *)
Inductive Task :=
| RefreshImages
| RefreshFolder (folder : string).

Global Instance Task_eq_dec : EqDecision Task.
Proof. solve_decision. Defined.

(** [cachedImages], [cachedFolders], and the refreshes whose store call has
    been issued and has not settled yet, oldest first. *)
Record State := {
  cachedImages : list Entry;
  cachedFolders : gmap string (list Entry);
  pending : list Task
}.

Definition withImages (st : State) (images : list Entry) : State :=
  {| cachedImages := images; cachedFolders := cachedFolders st;
     pending := pending st |}.

Definition withFolders (st : State) (folders : gmap string (list Entry)) : State :=
  {| cachedImages := cachedImages st; cachedFolders := folders;
     pending := pending st |}.

Definition withPending (st : State) (ts : list Task) : State :=
  {| cachedImages := cachedImages st; cachedFolders := cachedFolders st;
     pending := ts |}.

(** [let cachedImages = []; let cachedFolders = {};] *)
Definition empty : State :=
  {| cachedImages := []; cachedFolders := ∅; pending := [] |}.

(** The command a refresh sends. *)
Definition taskCommand (env : Js.Env) (t : Task) : S3.ListInput :=
  match t with
  | RefreshImages => listObjectsCommand (bucketArgs env)
  | RefreshFolder folder => listObjectsCommand (folderArgs env folder)
  end.

(** A refresh up to its [await]: the store call is issued, nothing else. *)
Definition spawn (env : Js.Env) (t : Task) (st : State) : State * list Action :=
  (withPending st (pending st ++ [t]), [Send (taskCommand env t)]).

(** [refreshImages()] up to its [await]. *)
Definition refreshImages (env : Js.Env) (st : State) : State * list Action :=
  spawn env RefreshImages st.

(** [refreshFolder(folder)] up to its [await]. *)
Definition refreshFolder (env : Js.Env) (folder : string) (st : State)
    : State * list Action :=
  spawn env (RefreshFolder folder) st.

(** [refreshImages] after the [await]. *)
Definition refreshImagesSettle (env : Js.Env) (st : State) (r : S3.Reply)
    : State * list Action :=
  match listObjectsSettle r with
  | (S3.Resolved data, logs) =>
      let images := toEntries env data in
      (withImages st images,
       map Log logs ++ [Log (CachedImagesCount (length images))])
  | (S3.Rejected err, logs) =>
      (st, map Log logs ++ [Log (FailedToRefreshImages err)])
  end.

(** [refreshFolder(folder)] after the [await]. *)
Definition refreshFolderSettle (env : Js.Env) (folder : string) (st : State)
    (r : S3.Reply) : State * list Action :=
  match listObjectsSettle r with
  | (S3.Resolved data, logs) =>
      let images := toEntries env data in
      (withFolders st (Js.set (cachedFolders st) folder images),
       map Log logs ++ [Log (CachedFolderCount (length images) folder)])
  | (S3.Rejected err, logs) =>
      (st, map Log logs ++ [Log (FailedToRefreshFolder folder err)])
  end.

(** [Object.keys(cachedFolders)]: the own property names.  The enumeration
    order of JavaScript is not reproduced; the callers' effects are stated up
    to order. *)
Definition objectKeys (folders : gmap string (list Entry)) : list string :=
  (map_to_list folders).*1.

(** [res.json(cachedFolders[folder])] *)
Definition jsonOf (v : Js.Lookup (list Entry)) : Body :=
  match v with
  | Js.Own l => JsonEntries l
  | Js.Inherited name => JsonPrototypeMember name
  | Js.Undefined => JsonEntries []
  end.

Inductive Event :=
| GetRoot                              (* GET / *)
| GetImages                            (* GET /api/images *)
| GetFolder (folder : string)          (* GET /api/images/<folder> *)
| ImagesTimer                          (* first setInterval callback *)
| FoldersTimer                         (* second setInterval callback *)
| Settle (i : nat) (r : S3.Reply).     (* pending call number i settles *)

(** The second timer callback:
    [Object.keys(cachedFolders).forEach(folder => refreshFolder(folder))]. *)
Definition refreshFolders (env : Js.Env) (st : State) : State * list Action :=
  foldl (λ acc folder,
           let '(st', acts) := refreshFolder env folder acc.1 in
           (st', acc.2 ++ acts))
        (st, []) (objectKeys (cachedFolders st)).

Definition step (env : Js.Env) (st : State) (ev : Event) : State * list Action :=
  match ev with
  | GetRoot => (st, [Respond (ok (JsonMessage "S3 Image Server is Running..."))])
  | GetImages => (st, [Respond (ok (JsonEntries (cachedImages st)))])
  | GetFolder folder =>
      if Js.absent (Js.get (cachedFolders st) folder) then
        let '(st', acts) := refreshFolder env folder st in
        (st', acts ++ [Respond (ok (JsonEntries []))])
      else
        (st, [Respond (ok (jsonOf (Js.get (cachedFolders st) folder)))])
  | ImagesTimer => refreshImages env st
  | FoldersTimer => refreshFolders env st
  | Settle i r =>
      match pending st !! i with
      | None => (st, [])
      | Some t =>
          let st' := withPending st (delete i (pending st)) in
          match t with
          | RefreshImages => refreshImagesSettle env st' r
          | RefreshFolder folder => refreshFolderSettle env folder st' r
          end
      end
  end.

(** The state after the start-up script: the initial [refreshImages()] has
    issued its call. *)
Definition start (env : Js.Env) : State * list Action :=
  refreshImages env empty.

Fixpoint runFrom (env : Js.Env) (st : State) (evs : list Event) : State * list Action :=
  match evs with
  | [] => (st, [])
  | ev :: rest =>
      let '(st1, acts1) := step env st ev in
      let '(st2, acts2) := runFrom env st1 rest in
      (st2, acts1 ++ acts2)
  end.

Definition run (env : Js.Env) (evs : list Event) : State * list Action :=
  let '(st0, acts0) := start env in
  let '(st, acts) := runFrom env st0 evs in
  (st, acts0 ++ acts).

End Cached.

(** ** Reading traces *)

Definition sends (acts : list Action) : list S3.ListInput :=
  omap (λ a, match a with Send req => Some req | _ => None end) acts.

Definition responses (acts : list Action) : list Response :=
  omap (λ a, match a with Respond r => Some r | _ => None end) acts.

Definition bodyEntries (b : Body) : option (list Entry) :=
  match b with
  | JsonEntries l => Some l
  | _ => None
  end.

(** ** A paginated store to run the programs against *)

Module TestStore.

(** The keys listed after the one a continuation token names. *)
Fixpoint after (token : string) (ks : list string) : list string :=
  match ks with
  | [] => []
  | k :: rest => if bool_decide (k = token) then rest else after token rest
  end.

(** A bucket holding [keys], listed in that order.  A call returns at most
    [MaxKeys] keys under [Prefix]; when more remain the page is truncated and
    its continuation token is the last key returned. *)
Definition paged (keys : list string) : S3.Store := λ req,
  let matching := List.filter (String.prefix (S3.Prefix req)) keys in
  let rest := match S3.ContinuationToken req with
              | Some token => after token matching
              | None => matching
              end in
  let page := take (S3.MaxKeys req) rest in
  let truncated := bool_decide (S3.MaxKeys req < length rest) in
  S3.Resolved
    {| S3.Contents := match page with
                      | [] => None
                      | _ => Some (map S3.Build_Object page)
                      end;
       S3.IsTruncated := truncated;
       S3.NextContinuationToken := if truncated then last page else None |}.

(** A store that is down. *)
Definition down : S3.Store :=
  λ _, S3.Rejected {| S3.errorName := "NetworkingError" |}.

Definition keyOf (n : nat) : string :=
  "photos/" +:+ NilEmpty.string_of_uint (Nat.to_uint n) +:+ ".jpg".

(** One key more than a page holds. *)
Definition keys1001 : list string := map keyOf (seq 0 1001).

(** The bucket of the spec's example. *)
Definition keysAB : list string := ["a/1.jpg"; "a/2.jpg"; "b/1.jpg"].

Definition env : Js.Env :=
  {[ "AWS_BUCKET" := "gallery"; "AWS_REGION" := "eu-west-1";
     "AWS_ACCESS_KEY" := "AKIAEXAMPLE"; "AWS_SECRET_KEY" := "secret" ]}.

(** The single page [paged keysAB] answers with when no prefix is given. *)
Definition pageAB : S3.ListOutput :=
  {| S3.Contents := Some (map S3.Build_Object keysAB);
     S3.IsTruncated := false;
     S3.NextContinuationToken := None |}.

Definition networkingError : S3.Error := {| S3.errorName := "NetworkingError" |}.

(** The answer for a prefix no key lies under. *)
Definition emptyPage : S3.ListOutput :=
  {| S3.Contents := None; S3.IsTruncated := false;
     S3.NextContinuationToken := None |}.

End TestStore.

(** ** The gateway as the specification words it

    Follows section 4.1 of the specification, not the source: list page after
    page, handing each page's continuation token to the next call, until a
    page carries none.  [fuel] bounds the number of pages. *)
Fixpoint spec_listAll (fuel : nat) (env : Js.Env) (send : S3.Store)
    (a : ListArgs) : option (list Entry) :=
  match fuel with
  | 0 => None
  | S fuel' =>
      match send (listObjectsCommand a) with
      | S3.Rejected _ => None
      | S3.Resolved data =>
          match S3.NextContinuationToken data with
          | None => Some (toEntries env data)
          | Some token =>
              let next := {| argBucket := argBucket a; argPrefix := argPrefix a;
                             argMaxKeys := argMaxKeys a;
                             argContinuationToken := Some token |} in
              (λ more, toEntries env data ++ more) <$> spec_listAll fuel' env send next
          end
      end
  end.

(** The entry arrays a trace sent out, one per array response. *)
Definition sentEntries (acts : list Action) : list (list Entry) :=
  omap (λ r, bodyEntries (body r)) (responses acts).

(** ** Vocabulary of the statements *)

(** An entry whose [url] is the one its [key] gives under [env]. *)
Definition derived (env : Js.Env) (e : Entry) : Prop :=
  url e = objectUrl env (key e).

(** Every cached entry carries the url of its key. *)
Definition cachesDerived (env : Js.Env) (st : Cached.State) : Prop :=
  Forall (derived env) (Cached.cachedImages st)
  ∧ map_Forall (λ _ l, Forall (derived env) l) (Cached.cachedFolders st).

(** The url the specification writes for [k]:
    https://{bucket}.s3.{region}.amazonaws.com/{key}. *)
Definition publicUrl (bucket region k : string) : string :=
  "https://" +:+ bucket +:+ ".s3." +:+ region +:+ ".amazonaws.com/" +:+ k.

(** [ev], taken in state [st], is the successful end of a full refresh. *)
Definition fullRefreshSucceeds (st : Cached.State) (ev : Cached.Event) : bool :=
  match ev with
  | Cached.Settle i (S3.Resolved _) =>
      bool_decide (Cached.pending st !! i = Some Cached.RefreshImages)
  | _ => false
  end.

(** No event of [evs], run from [st], is the successful end of a full
    refresh. *)
Fixpoint noFullRefresh (env : Js.Env) (st : Cached.State) (evs : list Cached.Event) : bool :=
  match evs with
  | [] => true
  | ev :: rest =>
      negb (fullRefreshSucceeds st ev)
      && noFullRefresh env (Cached.step env st ev).1 rest
  end.

(** Neither a pending folder refresh nor a cached folder bears a name that
    [Object.prototype] defines. *)
Definition plainNames (st : Cached.State) : Prop :=
  (∀ folder, Cached.RefreshFolder folder ∈ Cached.pending st →
             Js.inherited folder = false)
  ∧ (∀ folder, is_Some (Cached.cachedFolders st !! folder) →
               Js.inherited folder = false).

Definition timers (script : list Boot) : list (TimerCallback * N) :=
  omap (λ b, match b with SetInterval cb ms => Some (cb, ms) | _ => None end) script.

Definition listeners (script : list Boot) : list Port :=
  omap (λ b, match b with Listen p => Some p | _ => None end) script.

Definition exitCodes (script : list Boot) : list nat :=
  omap (λ b, match b with ProcessExit c => Some c | _ => None end) script.

Definition diagnostics (script : list Boot) : list LogLine :=
  omap (λ b, match b with ConsoleError l => Some l | _ => None end) script.

(** A required value the start-up check takes as missing: not set, or set to
    the empty string. *)
Definition unsetOrEmpty (env : Js.Env) (name : string) : Prop :=
  env !! name = None ∨ env !! name = Some "".

(** A required value is usable when it is set and not the empty string. *)
Definition configured (env : Js.Env) (name : string) : Prop :=
  ∃ v, env !! name = Some v ∧ v ≠ "".

(** An event that is an HTTP request reaching its handler. *)
Definition isRequest (ev : Cached.Event) : bool :=
  match ev with
  | Cached.GetRoot | Cached.GetImages | Cached.GetFolder _ => true
  | _ => false
  end.

Definition logged (acts : list Action) : list LogLine :=
  omap (λ a, match a with Log l => Some l | _ => None end) acts.

(** The line a refresh logs when it has cached a listing. *)
Definition isCachedLine (l : LogLine) : bool :=
  match l with
  | CachedImagesCount _ | CachedFolderCount _ _ => true
  | _ => false
  end.

(** The line a refresh logs in its [catch] block. *)
Definition isFailedLine (l : LogLine) : bool :=
  match l with
  | FailedToRefreshImages _ | FailedToRefreshFolder _ _ => true
  | _ => false
  end.

(** The line [listObjects] logs in its [catch] block. *)
Definition isS3ErrorLine (l : LogLine) : bool :=
  match l with
  | S3Error _ => true
  | _ => false
  end.

(** How many logged lines of a trace satisfy [p]. *)
Definition tally (p : LogLine → bool) (acts : list Action) : nat :=
  length (List.filter p (logged acts)).

(** The keys of a page, in the order the store gave them. *)
Definition storeKeys (data : S3.ListOutput) : list string :=
  S3.Key <$> default [] (S3.Contents data).

(** A store that returns only keys beginning with the requested prefix. *)
Definition honoursPrefix (send : S3.Store) : Prop :=
  ∀ req data k,
    send req = S3.Resolved data → k ∈ storeKeys data →
    String.prefix (S3.Prefix req) k = true.

(** The refreshes of [folder] among [ts]. *)
Definition refreshesOf (folder : string) (ts : list Cached.Task) : nat :=
  length (List.filter (λ t, bool_decide (t = Cached.RefreshFolder folder)) ts).

(** ** Basic facts about the cached server *)

(** Which pending refresh a settling call belongs to, if any, and how the
    call settles. *)
Ltac settle_cases st i r :=
  simpl;
  destruct (Cached.pending st !! i) as [[|?folder]|] eqn:?Hpending;
  destruct r as [?data|?err]; simpl.

Section CachedFacts.
Context (env : Js.Env).
Implicit Types (st : Cached.State) (ev : Cached.Event) (folder : string).

Lemma withPending_id st : Cached.withPending st (Cached.pending st) = st.
Proof. by destruct st. Qed.

Lemma spawn_caches t st :
  Cached.cachedImages (Cached.spawn env t st).1 = Cached.cachedImages st
  ∧ Cached.cachedFolders (Cached.spawn env t st).1 = Cached.cachedFolders st.
Proof. done. Qed.

Lemma refreshFolders_fold (ks : list string) st (acts : list Action) :
  foldl (λ acc folder,
           let '(st', acts') := Cached.refreshFolder env folder acc.1 in
           (st', acc.2 ++ acts'))
        (st, acts) ks
  = (Cached.withPending st (Cached.pending st ++ (Cached.RefreshFolder <$> ks)),
     acts ++ ((λ folder, Send (Cached.taskCommand env (Cached.RefreshFolder folder))) <$> ks)).
Proof.
  revert st acts. induction ks as [|k ks IH]; intros st acts; simpl.
  - by rewrite !app_nil_r, withPending_id.
  - rewrite IH. unfold Cached.withPending; simpl.
    by rewrite <- !app_assoc.
Qed.

(** The second timer callback starts one refresh per own key. *)
Lemma refreshFolders_eq st :
  Cached.refreshFolders env st
  = (Cached.withPending st
       (Cached.pending st
        ++ (Cached.RefreshFolder <$> Cached.objectKeys (Cached.cachedFolders st))),
     (λ folder, Send (Cached.taskCommand env (Cached.RefreshFolder folder)))
       <$> Cached.objectKeys (Cached.cachedFolders st)).
Proof. unfold Cached.refreshFolders. by rewrite refreshFolders_fold. Qed.

Lemma elem_of_objectKeys (folders : gmap string (list Entry)) folder :
  folder ∈ Cached.objectKeys folders ↔ is_Some (folders !! folder).
Proof.
  unfold Cached.objectKeys. rewrite list_elem_of_fmap. split.
  - intros [[k v] [-> Hin]]. apply elem_of_map_to_list in Hin. by exists v.
  - intros [v Hv]. exists (folder, v). split; [done|]. by apply elem_of_map_to_list.
Qed.

Lemma NoDup_objectKeys (folders : gmap string (list Entry)) :
  NoDup (Cached.objectKeys folders).
Proof. apply NoDup_fst_map_to_list. Qed.

End CachedFacts.

(** ** The gateway lists one page *)

(** C1, counterexample.  A bucket of 1001 keys answers the first call with a
    truncated page of 1000 keys and a continuation token.  The listing handler
    of [server.js] and the full refresh of the cached server both issue that
    one call and no other: the last key of the bucket is missing from the
    result, while draining the pages as the specification words it yields all
    1001 entries. *)
Lemma listAll_stops_after_first_page :
  let env := TestStore.env in
  let store := TestStore.paged TestStore.keys1001 in
  let acts := Direct.getImages env store in
  let cached :=
    Cached.run env
      [Cached.Settle 0 (store (Cached.taskCommand env Cached.RefreshImages));
       Cached.GetImages] in
  (∃ data, store (listObjectsCommand (bucketArgs env)) = S3.Resolved data
           ∧ S3.IsTruncated data = true
           ∧ S3.NextContinuationToken data = Some (TestStore.keyOf 999))
  ∧ length (sends acts) = 1
  ∧ (∃ l, sentEntries acts = [l] ∧ length l = 1000
          ∧ TestStore.keyOf 1000 ∉ key <$> l)
  ∧ length (sends cached.2) = 1
  ∧ (∃ l, sentEntries cached.2 = [l] ∧ length l = 1000
          ∧ TestStore.keyOf 1000 ∉ key <$> l)
  ∧ TestStore.keyOf 1000 ∈ TestStore.keys1001
  ∧ (length <$> spec_listAll 2 env store (bucketArgs env)) = Some 1001.
Proof.
  cbv zeta. split; [|split; [|split; [|split; [|split; [|split]]]]].
  - eexists. split; [vm_compute; reflexivity|]. split; vm_compute; reflexivity.
  - vm_compute; reflexivity.
  - eexists. split; [vm_compute; reflexivity|]. split; [vm_compute; reflexivity|].
    apply (bool_decide_eq_false_1 _). vm_compute; reflexivity.
  - vm_compute; reflexivity.
  - eexists. split; [vm_compute; reflexivity|]. split; [vm_compute; reflexivity|].
    apply (bool_decide_eq_false_1 _). vm_compute; reflexivity.
  - apply (bool_decide_eq_true_1 _). vm_compute; reflexivity.
  - vm_compute; reflexivity.
Qed.

(** [listObjects] sends the command it builds and nothing else. *)
Lemma sends_listObjects (send : S3.Store) (a : ListArgs) :
  sends (listObjects send a).1 = [listObjectsCommand a].
Proof. unfold listObjects. by destruct (send (listObjectsCommand a)). Qed.

Lemma sends_listing (env : Js.Env) (send : S3.Store) (a : ListArgs) :
  sends (Direct.listing env send a) = [listObjectsCommand a].
Proof.
  unfold Direct.listing, Direct.listingBody, listObjects.
  by destruct (send (listObjectsCommand a)).
Qed.

Lemma sentEntries_listing (env : Js.Env) (send : S3.Store) (a : ListArgs) :
  sentEntries (Direct.listing env send a)
  = match send (listObjectsCommand a) with
    | S3.Resolved data => [toEntries env data]
    | S3.Rejected _ => []
    end.
Proof.
  unfold Direct.listing, Direct.listingBody, listObjects.
  by destruct (send (listObjectsCommand a)).
Qed.

(** Settling a pending call issues no further call. *)
Lemma sends_settle (env : Js.Env) (st : Cached.State) (i : nat) (r : S3.Reply) :
  sends (Cached.step env st (Cached.Settle i r)).2 = [].
Proof. by settle_cases st i r. Qed.

(** C1, amended.  Every listing is one list call and one page.  In
    [server.js] each listing request sends exactly one command, with no
    continuation token and [MaxKeys] 1000, and answers with the entries of the
    page that call returns.  In the cached server a refresh sends that same
    single command when it starts and nothing when its call settles, and what
    it caches is the entries of the page received.  [listObjects] itself
    sends one command per invocation, carrying the continuation token its
    caller gives it; no caller gives one. *)
Theorem listing_is_one_page (env : Js.Env) (send : S3.Store) (st : Cached.State)
    (folder : string) (i : nat) (r : S3.Reply) (data : S3.ListOutput) :
  listObjectsCommand (bucketArgs env)
    = {| S3.Bucket := env !! "AWS_BUCKET"; S3.Prefix := "";
         S3.MaxKeys := 1000; S3.ContinuationToken := None |}
  ∧ listObjectsCommand (folderArgs env folder)
    = {| S3.Bucket := env !! "AWS_BUCKET"; S3.Prefix := folder +:+ "/";
         S3.MaxKeys := 1000; S3.ContinuationToken := None |}
  ∧ sends (Direct.getImages env send) = [listObjectsCommand (bucketArgs env)]
  ∧ sends (Direct.getFolder env send folder)
    = [listObjectsCommand (folderArgs env folder)]
  ∧ sentEntries (Direct.getImages env send)
    = match send (listObjectsCommand (bucketArgs env)) with
      | S3.Resolved page => [toEntries env page]
      | S3.Rejected _ => []
      end
  ∧ sentEntries (Direct.getFolder env send folder)
    = match send (listObjectsCommand (folderArgs env folder)) with
      | S3.Resolved page => [toEntries env page]
      | S3.Rejected _ => []
      end
  ∧ sends (Cached.refreshImages env st).2 = [listObjectsCommand (bucketArgs env)]
  ∧ sends (Cached.refreshFolder env folder st).2
    = [listObjectsCommand (folderArgs env folder)]
  ∧ sends (Cached.step env st (Cached.Settle i r)).2 = []
  ∧ Cached.cachedImages (Cached.refreshImagesSettle env st (S3.Resolved data)).1
    = toEntries env data
  ∧ Cached.cachedFolders
      (Cached.refreshFolderSettle env folder st (S3.Resolved data)).1
    = Js.set (Cached.cachedFolders st) folder (toEntries env data)
  ∧ (∀ a, sends (listObjects send a).1 = [listObjectsCommand a]
          ∧ S3.ContinuationToken (listObjectsCommand a) = argContinuationToken a).
Proof.
  split; [done|]. split; [done|].
  split; [apply sends_listing|]. split; [apply sends_listing|].
  split; [apply sentEntries_listing|]. split; [apply sentEntries_listing|].
  split; [done|]. split; [done|].
  split; [apply sends_settle|].
  split; [done|]. split; [done|].
  intros a. split; [apply sends_listObjects|done].
Qed.

(** ** GET /api/images *)

(** C2, counterexample.  The handler of [server.js] keeps no cache: serving
    GET /api/images it sends a list call to the store and answers with what
    that call returns. *)
Lemma direct_getImages_calls_the_store :
  let env := TestStore.env in
  sends (Direct.getImages env (TestStore.paged TestStore.keysAB))
    = [listObjectsCommand (bucketArgs env)]
  ∧ sentEntries (Direct.getImages env (TestStore.paged TestStore.keysAB))
    = [toEntries env TestStore.pageAB]
  ∧ sentEntries (Direct.getImages env (TestStore.paged [])) = [[]]
  ∧ sends (Direct.getImages env (TestStore.paged TestStore.keysAB)) ≠ [].
Proof. cbv zeta. repeat split; try (vm_compute; reflexivity). by vm_compute. Qed.

Lemma runFrom_cons (env : Js.Env) (st : Cached.State) (ev : Cached.Event)
    (rest : list Cached.Event) :
  (Cached.runFrom env st (ev :: rest)).1
  = (Cached.runFrom env (Cached.step env st ev).1 rest).1.
Proof.
  simpl. destruct (Cached.step env st ev) as [st1 acts1]; simpl.
  by destruct (Cached.runFrom env st1 rest).
Qed.

(** Only the successful end of a full refresh writes [cachedImages]. *)
Lemma step_cachedImages (env : Js.Env) (st : Cached.State) (ev : Cached.Event) :
  fullRefreshSucceeds st ev = false →
  Cached.cachedImages (Cached.step env st ev).1 = Cached.cachedImages st.
Proof.
  destruct ev as [| |folder| | |i r]; simpl; try done.
  - by destruct (Js.absent _).
  - by rewrite refreshFolders_eq.
  - destruct (Cached.pending st !! i) as [[|folder]|] eqn:Hi; [| |done].
    + destruct r; [|done]. intros H. by apply bool_decide_eq_false_1 in H.
    + by destruct r.
Qed.

Lemma runFrom_cachedImages (env : Js.Env) (evs : list Cached.Event) (st : Cached.State) :
  noFullRefresh env st evs = true →
  Cached.cachedImages (Cached.runFrom env st evs).1 = Cached.cachedImages st.
Proof.
  revert st. induction evs as [|ev rest IH]; intros st H; [done|].
  simpl in H. apply andb_prop in H as [Hev Hrest].
  rewrite runFrom_cons, IH by done.
  apply step_cachedImages. by apply negb_true_iff.
Qed.

Lemma settle_full_refresh (env : Js.Env) (st : Cached.State) (i : nat)
    (data : S3.ListOutput) :
  Cached.pending st !! i = Some Cached.RefreshImages →
  Cached.cachedImages (Cached.step env st (Cached.Settle i (S3.Resolved data))).1
  = toEntries env data.
Proof. intros H. simpl. by rewrite H. Qed.

(** C2, amended.  In the cached server GET /api/images answers with
    [cachedImages] as it stands, sends nothing to the store and changes no
    state.  Once a full refresh has ended successfully with [data], and for as
    long as no later full refresh ends successfully, that answer is exactly
    the entries derived from [data].  ([server.js] has no cache and lists the
    store on every request.) *)
Theorem getImages_serves_latest_full_listing (env : Js.Env) (st : Cached.State)
    (i : nat) (data : S3.ListOutput) (evs : list Cached.Event) :
  Cached.pending st !! i = Some Cached.RefreshImages →
  noFullRefresh env
    (Cached.step env st (Cached.Settle i (S3.Resolved data))).1 evs = true →
  let st' := (Cached.runFrom env st (Cached.Settle i (S3.Resolved data) :: evs)).1 in
  (∀ s, Cached.step env s Cached.GetImages
        = (s, [Respond (ok (JsonEntries (Cached.cachedImages s)))]))
  ∧ Cached.step env st' Cached.GetImages
    = (st', [Respond (ok (JsonEntries (toEntries env data)))])
  ∧ sends (Cached.step env st' Cached.GetImages).2 = [].
Proof.
  intros Hi Hquiet st'. split; [done|]. split; [|done].
  assert (Cached.cachedImages st' = toEntries env data) as Hst'.
  { subst st'. rewrite runFrom_cons, runFrom_cachedImages by done.
    by apply settle_full_refresh. }
  simpl. by rewrite Hst'.
Qed.

(** The start-up refresh succeeds with the three keys of the example bucket;
    then a folder is polled, its population fails, a timer starts a second
    full refresh and that one fails too: GET /api/images still answers with
    the three entries. *)
Lemma getImages_serves_latest_full_listing_witness :
  let env := TestStore.env in
  let st := (Cached.start env).1 in
  let evs := [ Cached.GetFolder "a";
               Cached.Settle 0 (S3.Rejected TestStore.networkingError);
               Cached.ImagesTimer;
               Cached.Settle 0 (S3.Rejected TestStore.networkingError) ] in
  let st' := (Cached.runFrom env st
                (Cached.Settle 0 (S3.Resolved TestStore.pageAB) :: evs)).1 in
  Cached.pending st !! 0 = Some Cached.RefreshImages
  ∧ Cached.step env st' Cached.GetImages
    = (st', [Respond (ok (JsonEntries (toEntries env TestStore.pageAB)))]).
Proof.
  cbv zeta. split; [reflexivity|].
  refine (proj1 (proj2 (getImages_serves_latest_full_listing TestStore.env
                          (Cached.start TestStore.env).1 0 TestStore.pageAB
                          _ _ _)));
    vm_compute; reflexivity.
Defined.

(** ** Failed refreshes *)

(** C3.  When the store call of a refresh is rejected, whichever refresh it
    is, the caches after the failure are the caches before it: [cachedImages]
    is the same array, [cachedFolders] the same object, so every folder reads
    as before and a folder that had no entry still has none.  The same holds
    of each refresh function on its own. *)
Theorem failed_refresh_keeps_cache (env : Js.Env) (st : Cached.State) (i : nat)
    (err : S3.Error) :
  let st' := (Cached.step env st (Cached.Settle i (S3.Rejected err))).1 in
  Cached.cachedImages st' = Cached.cachedImages st
  ∧ Cached.cachedFolders st' = Cached.cachedFolders st
  ∧ (∀ folder,
       Cached.cachedFolders st' !! folder = Cached.cachedFolders st !! folder
       ∧ Js.get (Cached.cachedFolders st') folder
         = Js.get (Cached.cachedFolders st) folder)
  ∧ (∀ s, (Cached.refreshImagesSettle env s (S3.Rejected err)).1 = s)
  ∧ (∀ s folder, (Cached.refreshFolderSettle env folder s (S3.Rejected err)).1 = s).
Proof.
  cbv zeta.
  assert (Cached.cachedImages
            (Cached.step env st (Cached.Settle i (S3.Rejected err))).1
          = Cached.cachedImages st
          ∧ Cached.cachedFolders
              (Cached.step env st (Cached.Settle i (S3.Rejected err))).1
            = Cached.cachedFolders st) as [Himages Hfolders].
  { simpl. by destruct (Cached.pending st !! i) as [[|folder]|]. }
  split; [done|]. split; [done|]. split; [|done].
  intros folder. by rewrite Hfolders.
Qed.

(** ** Names inherited from Object.prototype never enter the cache *)

Lemma inherited_proto : Js.inherited "__proto__" = true.
Proof. reflexivity. Qed.

Lemma absent_get (folders : gmap string (list Entry)) (folder : string) :
  Js.absent (Js.get folders folder) = true ↔
  folders !! folder = None ∧ Js.inherited folder = false.
Proof.
  unfold Js.get. destruct (folders !! folder); simpl.
  - split; [done|]. by intros [? _].
  - destruct (Js.inherited folder); simpl; split; try done. by intros [_ ?].
Qed.

Lemma plainNames_start (env : Js.Env) : plainNames (Cached.start env).1.
Proof.
  split; simpl.
  - intros folder H. apply list_elem_of_singleton in H. discriminate.
  - intros folder [v Hv]. by rewrite lookup_empty in Hv.
Qed.

Lemma plainNames_pending (st : Cached.State) (ts : list Cached.Task) :
  plainNames st →
  (∀ folder, Cached.RefreshFolder folder ∈ ts → Js.inherited folder = false) →
  plainNames (Cached.withPending st ts).
Proof. intros [_ Hcache] Hts. by split. Qed.

Lemma plainNames_step (env : Js.Env) (st : Cached.State) (ev : Cached.Event) :
  plainNames st → plainNames (Cached.step env st ev).1.
Proof.
  intros Hst. pose proof Hst as [Hpending Hcache].
  destruct ev as [| |folder| | |i r]; simpl; try done.
  - destruct (Js.absent _) eqn:Habsent; [|done].
    apply absent_get in Habsent as [_ Hplain].
    apply plainNames_pending; [done|]. intros g Hg.
    apply elem_of_app in Hg as [Hg|Hg]; [by apply Hpending|].
    apply list_elem_of_singleton in Hg. by simplify_eq.
  - apply plainNames_pending; [done|]. intros g Hg.
    apply elem_of_app in Hg as [Hg|Hg]; [by apply Hpending|].
    apply list_elem_of_singleton in Hg. discriminate.
  - rewrite refreshFolders_eq. simpl.
    apply plainNames_pending; [done|]. intros g Hg.
    apply elem_of_app in Hg as [Hg|Hg]; [by apply Hpending|].
    apply list_elem_of_fmap in Hg as (k & Hk & Hin). simplify_eq.
    apply Hcache. by apply elem_of_objectKeys.
  - destruct (Cached.pending st !! i) as [t|] eqn:Hi; [|done].
    assert (plainNames (Cached.withPending st (delete i (Cached.pending st))))
      as Hdel.
    { apply plainNames_pending; [done|]. intros g Hg.
      apply Hpending. by eapply list_elem_of_delete_inv. }
    destruct t as [|folder]; destruct r as [data|err]; simpl; try done.
    destruct Hdel as [Hp' Hc']. split; [done|]. simpl.
    intros g. unfold Js.set. case_bool_decide; [by apply Hcache|].
    destruct (decide (folder = g)) as [->|Hne].
    + intros _. apply Hpending. by eapply list_elem_of_lookup_2.
    + rewrite lookup_insert_ne by done. apply Hcache.
Qed.

Lemma plainNames_runFrom (env : Js.Env) (evs : list Cached.Event) (st : Cached.State) :
  plainNames st → plainNames (Cached.runFrom env st evs).1.
Proof.
  revert st. induction evs as [|ev rest IH]; intros st Hst; [done|].
  rewrite runFrom_cons. by apply IH, plainNames_step.
Qed.

Lemma run_runFrom (env : Js.Env) (evs : list Cached.Event) :
  (Cached.run env evs).1 = (Cached.runFrom env (Cached.start env).1 evs).1.
Proof.
  unfold Cached.run. destruct (Cached.start env) as [st0 acts0]; simpl.
  by destruct (Cached.runFrom env st0 evs).
Qed.

(** Whatever requests, timers and store replies occur after start-up, no
    pending refresh and no cached folder bears an inherited name; so the
    assignment to [cachedFolders[folder]] always creates an own property. *)
Lemma plainNames_run (env : Js.Env) (evs : list Cached.Event) :
  plainNames (Cached.run env evs).1.
Proof. rewrite run_runFrom. apply plainNames_runFrom, plainNames_start. Qed.

Lemma set_plain (st : Cached.State) (i : nat) (folder : string) (v : list Entry) :
  plainNames st →
  Cached.pending st !! i = Some (Cached.RefreshFolder folder) →
  Js.set (Cached.cachedFolders st) folder v = <[folder := v]> (Cached.cachedFolders st).
Proof.
  intros [Hpending _] Hi. unfold Js.set. case_bool_decide as Hname; [|done].
  subst folder. apply list_elem_of_lookup_2, Hpending in Hi.
  by rewrite inherited_proto in Hi.
Qed.

(** ** One slot per refresh *)

Lemma step_frame (env : Js.Env) (st : Cached.State) (ev : Cached.Event) :
  (∀ i data, ev ≠ Cached.Settle i (S3.Resolved data)) →
  Cached.cachedImages (Cached.step env st ev).1 = Cached.cachedImages st
  ∧ Cached.cachedFolders (Cached.step env st ev).1 = Cached.cachedFolders st.
Proof.
  intros Hev. destruct ev as [| |folder| | |i r]; simpl; try done.
  - by destruct (Js.absent _).
  - by rewrite refreshFolders_eq.
  - destruct r as [data|err]; [by destruct (Hev i data)|].
    by destruct (Cached.pending st !! i) as [[|folder]|].
Qed.

(** C6.  Take any state the server can be in, that is, the state after any
    sequence of requests, timer callbacks and store replies, and any next
    event.  If the event is the successful end of a full refresh, the new
    [cachedImages] is the whole derived listing and [cachedFolders] is the
    same object; if it is the successful end of the refresh of [folder], the
    new [cachedFolders] is the old one with [folder] set to the whole derived
    listing, so every other folder and [cachedImages] are as before; any other
    event, a read in particular, leaves both caches as they were.  A read
    answers with the slot as it stands at that moment. *)
Theorem refresh_replaces_one_slot (env : Js.Env) (evs : list Cached.Event)
    (ev : Cached.Event) :
  let st := (Cached.run env evs).1 in
  let st' := (Cached.step env st ev).1 in
  match ev with
  | Cached.Settle i (S3.Resolved data) =>
      match Cached.pending st !! i with
      | Some Cached.RefreshImages =>
          Cached.cachedImages st' = toEntries env data
          ∧ Cached.cachedFolders st' = Cached.cachedFolders st
      | Some (Cached.RefreshFolder folder) =>
          Cached.cachedImages st' = Cached.cachedImages st
          ∧ Cached.cachedFolders st'
            = <[folder := toEntries env data]> (Cached.cachedFolders st)
          ∧ (∀ other, Cached.cachedFolders st' !! other
                      = if decide (folder = other)
                        then Some (toEntries env data)
                        else Cached.cachedFolders st !! other)
      | None =>
          Cached.cachedImages st' = Cached.cachedImages st
          ∧ Cached.cachedFolders st' = Cached.cachedFolders st
      end
  | _ =>
      Cached.cachedImages st' = Cached.cachedImages st
      ∧ Cached.cachedFolders st' = Cached.cachedFolders st
  end
  ∧ responses (Cached.step env st Cached.GetImages).2
    = [ok (JsonEntries (Cached.cachedImages st))]
  ∧ (∀ folder, responses (Cached.step env st (Cached.GetFolder folder)).2
               = [ok (Cached.jsonOf (Js.get (Cached.cachedFolders st) folder))]).
Proof.
  intros st st'. split; [|split; [done|]].
  - destruct ev as [| |folder| | |i [data|err]];
      try (by apply step_frame).
    subst st'. simpl.
    destruct (Cached.pending st !! i) as [[|folder]|] eqn:Hi; simpl; [done| |done].
    split; [done|].
    rewrite (set_plain _ i) by (done || apply plainNames_run).
    split; [done|]. intros other. apply lookup_insert.
  - intros folder. simpl.
    destruct (Js.get (Cached.cachedFolders st) folder); done.
Qed.

(** ** [url] follows [key] *)

Lemma toEntries_derived (env : Js.Env) (data : S3.ListOutput) :
  Forall (derived env) (toEntries env data).
Proof.
  unfold toEntries. destruct (S3.Contents data) as [files|]; [|done].
  apply Forall_fmap, Forall_forall. done.
Qed.

Lemma sentEntries_app (acts1 acts2 : list Action) :
  sentEntries (acts1 ++ acts2) = sentEntries acts1 ++ sentEntries acts2.
Proof. unfold sentEntries, responses. by rewrite !omap_app. Qed.

Lemma sentEntries_logs (logs : list LogLine) : sentEntries (Log <$> logs) = [].
Proof. by induction logs. Qed.

Lemma cachesDerived_step (env : Js.Env) (st : Cached.State) (ev : Cached.Event) :
  cachesDerived env st →
  cachesDerived env (Cached.step env st ev).1
  ∧ Forall (Forall (derived env)) (sentEntries (Cached.step env st ev).2).
Proof.
  intros [Himages Hfolders].
  destruct ev as [| |folder| | |i r]; simpl.
  - split; [done|]. constructor.
  - split; [done|]. by repeat constructor.
  - unfold Js.get.
    destruct (Cached.cachedFolders st !! folder) as [l|] eqn:Hl; simpl.
    + split; [done|]. repeat constructor. by eapply Hfolders.
    + destruct (Js.inherited folder); simpl; split; by repeat constructor.
  - split; [done|]. constructor.
  - rewrite refreshFolders_eq. split; [done|]. simpl.
    induction (Cached.objectKeys _); [constructor|done].
  - destruct (Cached.pending st !! i) as [[|folder]|]; [| |by split; [|constructor]].
    + destruct r as [data|err]; simpl; (split; [|constructor]); [|done].
      split; [apply toEntries_derived|done].
    + destruct r as [data|err]; simpl; (split; [|constructor]); [|done].
      split; [done|]. simpl. unfold Js.set. case_bool_decide; [done|].
      apply map_Forall_insert_2; [apply toEntries_derived|done].
Qed.

Lemma runFrom_cons_actions (env : Js.Env) (st : Cached.State) (ev : Cached.Event)
    (rest : list Cached.Event) :
  (Cached.runFrom env st (ev :: rest)).2
  = (Cached.step env st ev).2 ++ (Cached.runFrom env (Cached.step env st ev).1 rest).2.
Proof.
  simpl. destruct (Cached.step env st ev) as [st1 acts1]; simpl.
  by destruct (Cached.runFrom env st1 rest).
Qed.

Lemma cachesDerived_runFrom (env : Js.Env) (evs : list Cached.Event) (st : Cached.State) :
  cachesDerived env st →
  cachesDerived env (Cached.runFrom env st evs).1
  ∧ Forall (Forall (derived env)) (sentEntries (Cached.runFrom env st evs).2).
Proof.
  revert st. induction evs as [|ev rest IH]; intros st Hst.
  - split; [done|constructor].
  - destruct (cachesDerived_step env st ev Hst) as [Hst1 Hacts1].
    destruct (IH _ Hst1) as [Hst2 Hacts2].
    rewrite runFrom_cons, runFrom_cons_actions, sentEntries_app.
    split; [done|]. by apply Forall_app.
Qed.

Lemma run_actions (env : Js.Env) (evs : list Cached.Event) :
  (Cached.run env evs).2
  = (Cached.start env).2 ++ (Cached.runFrom env (Cached.start env).1 evs).2.
Proof.
  unfold Cached.run. destruct (Cached.start env) as [st0 acts0]; simpl.
  by destruct (Cached.runFrom env st0 evs).
Qed.

Lemma cachesDerived_run (env : Js.Env) (evs : list Cached.Event) :
  cachesDerived env (Cached.run env evs).1
  ∧ Forall (Forall (derived env)) (sentEntries (Cached.run env evs).2).
Proof.
  rewrite run_runFrom, run_actions, sentEntries_app.
  assert (cachesDerived env (Cached.start env).1) as Hstart.
  { split; simpl; [constructor|apply map_Forall_empty]. }
  destruct (cachesDerived_runFrom env evs _ Hstart) as [Hst Hacts].
  split; [done|]. apply Forall_app. split; [constructor|done].
Qed.

Lemma derived_listing (env : Js.Env) (send : S3.Store) (a : ListArgs) :
  Forall (Forall (derived env)) (sentEntries (Direct.listing env send a)).
Proof.
  rewrite sentEntries_listing. destruct (send (listObjectsCommand a)).
  - repeat constructor. apply toEntries_derived.
  - constructor.
Qed.

Lemma objectUrl_configured (env : Js.Env) (bucket region k : string) :
  env !! "AWS_BUCKET" = Some bucket →
  env !! "AWS_REGION" = Some region →
  objectUrl env k = publicUrl bucket region k.
Proof. intros Hb Hr. unfold objectUrl, publicUrl. by rewrite Hb, Hr. Qed.

(** C7.  With the bucket and the region the environment configures, every
    entry the programs hold or send has
    [url = https://{bucket}.s3.{region}.amazonaws.com/{key}]: the entries of
    [cachedImages] and of every array of [cachedFolders] after any sequence
    of requests, timer callbacks and store replies, the entries of every
    response of the cached server along the way, and the entries a direct
    listing of [server.js] answers with. *)
Theorem url_follows_key (env : Js.Env) (bucket region : string)
    (evs : list Cached.Event) (send : S3.Store) (a : ListArgs) :
  env !! "AWS_BUCKET" = Some bucket →
  env !! "AWS_REGION" = Some region →
  let shaped := λ e, url e = publicUrl bucket region (key e) in
  Forall shaped (Cached.cachedImages (Cached.run env evs).1)
  ∧ map_Forall (λ _ l, Forall shaped l) (Cached.cachedFolders (Cached.run env evs).1)
  ∧ Forall (Forall shaped) (sentEntries (Cached.run env evs).2)
  ∧ Forall (Forall shaped) (sentEntries (Direct.listing env send a))
  ∧ (∀ data, Forall shaped (toEntries env data)).
Proof.
  intros Hb Hr shaped.
  assert (∀ l, Forall (derived env) l → Forall shaped l) as Hshape.
  { intros l Hl. eapply Forall_impl; [exact Hl|]. intros e He. unfold shaped.
    rewrite He. by apply objectUrl_configured. }
  destruct (cachesDerived_run env evs) as [[Himages Hfolders] Hsent].
  split; [by apply Hshape|].
  split; [by eapply map_Forall_impl; [exact Hfolders|]; intros; apply Hshape|].
  split; [by eapply Forall_impl; [exact Hsent|]|].
  split; [by eapply Forall_impl; [apply derived_listing|]|].
  intros data. apply Hshape, toEntries_derived.
Qed.

(** The example bucket, refreshed in full and for folder a, then read. *)
Lemma url_follows_key_witness :
  let env := TestStore.env in
  let store := TestStore.paged TestStore.keysAB in
  let evs := [ Cached.GetFolder "a";
               Cached.Settle 0 (store (Cached.taskCommand env Cached.RefreshImages));
               Cached.Settle 0
                 (store (Cached.taskCommand env (Cached.RefreshFolder "a")));
               Cached.GetImages; Cached.GetFolder "a" ] in
  env !! "AWS_BUCKET" = Some "gallery"
  ∧ env !! "AWS_REGION" = Some "eu-west-1"
  ∧ length (Cached.cachedImages (Cached.run env evs).1) = 3
  ∧ Forall (λ e, url e = publicUrl "gallery" "eu-west-1" (key e))
      (Cached.cachedImages (Cached.run env evs).1)
  ∧ Forall (Forall (λ e, url e = publicUrl "gallery" "eu-west-1" (key e)))
      (sentEntries (Cached.run env evs).2).
Proof.
  cbv zeta. split; [reflexivity|]. split; [reflexivity|].
  split; [vm_compute; reflexivity|].
  pose proof (url_follows_key TestStore.env "gallery" "eu-west-1"
                [ Cached.GetFolder "a";
                  Cached.Settle 0
                    (TestStore.paged TestStore.keysAB
                       (Cached.taskCommand TestStore.env Cached.RefreshImages));
                  Cached.Settle 0
                    (TestStore.paged TestStore.keysAB
                       (Cached.taskCommand TestStore.env (Cached.RefreshFolder "a")));
                  Cached.GetImages; Cached.GetFolder "a" ]
                TestStore.down (bucketArgs TestStore.env)
                eq_refl eq_refl) as (Himages & _ & Hsent & _).
  split; [exact Himages|exact Hsent].
Defined.

(** ** GET /api/images/<folder> *)

(** A folder that has no entry, under a name [Object.prototype] does not
    define: the request starts one refresh and answers with the empty array. *)
Lemma first_request_populates (env : Js.Env) (st : Cached.State) (folder : string) :
  Cached.cachedFolders st !! folder = None →
  Js.inherited folder = false →
  Cached.step env st (Cached.GetFolder folder)
  = (Cached.withPending st (Cached.pending st ++ [Cached.RefreshFolder folder]),
     [ Send (Cached.taskCommand env (Cached.RefreshFolder folder));
       Respond (ok (JsonEntries [])) ]).
Proof.
  intros Hnone Hplain. simpl.
  assert (Js.absent (Js.get (Cached.cachedFolders st) folder) = true) as ->; [|done].
  by apply absent_get.
Qed.

(** A folder that has an entry is answered from it; nothing is sent. *)
Lemma populated_folder_served (env : Js.Env) (st : Cached.State) (folder : string)
    (l : list Entry) :
  Cached.cachedFolders st !! folder = Some l →
  Cached.step env st (Cached.GetFolder folder) = (st, [Respond (ok (JsonEntries l))]).
Proof. intros Hl. simpl. unfold Js.get. by rewrite Hl. Qed.

(** Once the population of a plain folder has succeeded, the folder has an
    entry: the derived listing. *)
Lemma population_fills_folder (env : Js.Env) (st : Cached.State) (i : nat)
    (folder : string) (data : S3.ListOutput) :
  plainNames st →
  Cached.pending st !! i = Some (Cached.RefreshFolder folder) →
  Cached.cachedFolders (Cached.step env st (Cached.Settle i (S3.Resolved data))).1
    !! folder
  = Some (toEntries env data).
Proof.
  intros Hplain Hi. simpl. rewrite Hi. simpl.
  rewrite (set_plain _ i) by done. apply lookup_insert_eq.
Qed.

(** Polling a plain folder that has no entry: every poll starts a refresh of
    its own and answers with the empty array. *)
Lemma polling_absent_folder (env : Js.Env) (folder : string) (n : nat)
    (st : Cached.State) :
  Cached.cachedFolders st !! folder = None →
  Js.inherited folder = false →
  Cached.runFrom env st (replicate n (Cached.GetFolder folder))
  = (Cached.withPending st
       (Cached.pending st ++ replicate n (Cached.RefreshFolder folder)),
     mjoin (replicate n
              [ Send (Cached.taskCommand env (Cached.RefreshFolder folder));
                Respond (ok (JsonEntries [])) ])).
Proof.
  intros Hnone Hplain. revert st Hnone.
  induction n as [|n IH]; intros st Hnone.
  - simpl. by rewrite app_nil_r, withPending_id.
  - cbn [replicate Cached.runFrom].
    rewrite first_request_populates by done.
    rewrite IH by done. unfold Cached.withPending; cbn.
    by rewrite <- app_assoc.
Qed.

Lemma constructor_inherited : Js.inherited "constructor" = true.
Proof. reflexivity. Qed.

(** A name [Object.prototype] defines and the folder lacks: the lookup finds
    the inherited member, which is truthy, so nothing is refreshed and the
    member itself is handed to [res.json]. *)
Lemma inherited_name_served (env : Js.Env) (st : Cached.State) (name : string) :
  Cached.cachedFolders st !! name = None →
  Js.inherited name = true →
  Cached.step env st (Cached.GetFolder name)
  = (st, [Respond (ok (JsonPrototypeMember name))]).
Proof. intros Hnone Hin. simpl. unfold Js.get. by rewrite Hnone, Hin. Qed.

(** C4, the failing request.  Right after start-up no folder has an entry.
    The first GET /api/images/constructor does not answer with the empty
    array and starts no population: [cachedFolders["constructor"]] finds
    [Object.prototype.constructor], the handler skips the refresh and passes
    that function to [res.json]. *)
Theorem first_request_for_constructor (env : Js.Env) :
  let st := (Cached.start env).1 in
  let result := Cached.step env st (Cached.GetFolder "constructor") in
  Cached.cachedFolders st = ∅
  ∧ result = (st, [Respond (ok (JsonPrototypeMember "constructor"))])
  ∧ sends result.2 = []
  ∧ sentEntries result.2 = []
  ∧ Cached.step env st (Cached.GetFolder "holidays")
    = (Cached.withPending st (Cached.pending st ++ [Cached.RefreshFolder "holidays"]),
       [ Send (Cached.taskCommand env (Cached.RefreshFolder "holidays"));
         Respond (ok (JsonEntries [])) ]).
Proof. cbv zeta. repeat split. Qed.

(** C10, the failing requests.  In every state the server can reach, the
    folder constructor has no entry, and however often it is polled no
    population is started: no call goes to the store, the state stays as it
    is, and no poll is answered with the empty array. *)
Theorem polling_constructor_starts_nothing (env : Js.Env) (evs : list Cached.Event)
    (n : nat) :
  let st := (Cached.run env evs).1 in
  let result := Cached.runFrom env st (replicate n (Cached.GetFolder "constructor")) in
  Cached.cachedFolders st !! "constructor" = None
  ∧ result = (st, replicate n (Respond (ok (JsonPrototypeMember "constructor"))))
  ∧ sends result.2 = []
  ∧ sentEntries result.2 = [].
Proof.
  intros st.
  assert (Cached.cachedFolders st !! "constructor" = None) as Hnone.
  { destruct (plainNames_run env evs) as [_ Hcache].
    destruct (Cached.cachedFolders st !! "constructor") eqn:Hl; [|done].
    by specialize (Hcache "constructor" (mk_is_Some _ _ Hl)). }
  assert (Cached.runFrom env st (replicate n (Cached.GetFolder "constructor"))
          = (st, replicate n (Respond (ok (JsonPrototypeMember "constructor")))))
    as Hrun.
  { induction n as [|n IH]; [done|].
    cbn [replicate Cached.runFrom].
    rewrite inherited_name_served by done. by rewrite IH. }
  cbv zeta. rewrite Hrun. split; [done|]. split; [done|]. clear Hrun.
  split; simpl; induction n as [|m IHm]; done.
Qed.

(** ** Store failures and HTTP responses *)

(** C5, counterexample.  In [server.js] a store call that fails makes
    [listObjects] throw; [asyncHandler] hands the error to the error
    middleware, and the client of either listing endpoint receives status 500
    with an error object. *)
Lemma direct_listing_surfaces_store_failure :
  let env := TestStore.env in
  let failure := {| status := 500; body := JsonError "Internal server error" |} in
  responses (Direct.getImages env TestStore.down) = [failure]
  ∧ responses (Direct.getFolder env TestStore.down "a") = [failure]
  ∧ sentEntries (Direct.getImages env TestStore.down) = [].
Proof. cbv zeta. repeat split. Qed.

Lemma responses_app (acts1 acts2 : list Action) :
  responses (acts1 ++ acts2) = responses acts1 ++ responses acts2.
Proof. unfold responses. by rewrite omap_app. Qed.

Lemma responses_settle (env : Js.Env) (st : Cached.State) (i : nat) (r : S3.Reply) :
  responses (Cached.step env st (Cached.Settle i r)).2 = [].
Proof. by settle_cases st i r. Qed.

Lemma responses_step_ok (env : Js.Env) (st : Cached.State) (ev : Cached.Event) :
  Forall (λ r, status r = 200) (responses (Cached.step env st ev).2).
Proof.
  destruct ev as [| |folder| | |i r].
  - by repeat constructor.
  - by repeat constructor.
  - simpl. destruct (Js.absent _); by repeat constructor.
  - constructor.
  - simpl. rewrite refreshFolders_eq. simpl.
    induction (Cached.objectKeys _); [constructor|done].
  - rewrite responses_settle. constructor.
Qed.

Lemma responses_runFrom_ok (env : Js.Env) (evs : list Cached.Event) (st : Cached.State) :
  Forall (λ r, status r = 200) (responses (Cached.runFrom env st evs).2).
Proof.
  revert st. induction evs as [|ev rest IH]; intros st; [constructor|].
  rewrite runFrom_cons_actions, responses_app.
  apply Forall_app. split; [apply responses_step_ok|apply IH].
Qed.

(** C5, amended.  In the cached server, after any sequence of requests, timer
    callbacks and store replies, failed ones included: every response sent so
    far has status 200; GET /api/images answers 200 with the array
    [cachedImages]; GET /api/images/<folder>, for a folder name that
    [Object.prototype] does not define, answers 200 with the folder's cached
    array, or the empty array when it has none; and a settling store call,
    failed or not, sends no response at all. *)
Theorem cached_listing_never_fails (env : Js.Env) (evs : list Cached.Event)
    (folder : string) :
  Js.inherited folder = false →
  let st := (Cached.run env evs).1 in
  Forall (λ r, status r = 200) (responses (Cached.run env evs).2)
  ∧ responses (Cached.step env st Cached.GetImages).2
    = [ok (JsonEntries (Cached.cachedImages st))]
  ∧ responses (Cached.step env st (Cached.GetFolder folder)).2
    = [ok (JsonEntries (default [] (Cached.cachedFolders st !! folder)))]
  ∧ (∀ i r, responses (Cached.step env st (Cached.Settle i r)).2 = []).
Proof.
  intros Hplain st.
  split.
  { rewrite run_actions, responses_app. apply Forall_app.
    split; [constructor|apply responses_runFrom_ok]. }
  split; [done|]. split; [|intros; apply responses_settle].
  destruct (Cached.cachedFolders st !! folder) as [l|] eqn:Hl.
  - by rewrite (populated_folder_served _ _ _ l).
  - by rewrite first_request_populates.
Qed.

(** The store is down from the start: the start-up refresh and the
    population of folder a both fail, and both endpoints still answer 200
    with an array. *)
Lemma cached_listing_never_fails_witness :
  let env := TestStore.env in
  let evs := [ Cached.GetImages; Cached.GetFolder "a";
               Cached.Settle 1 (S3.Rejected TestStore.networkingError);
               Cached.Settle 0 (S3.Rejected TestStore.networkingError);
               Cached.GetFolder "a" ] in
  let st := (Cached.run env evs).1 in
  Js.inherited "a" = false
  ∧ Forall (λ r, status r = 200) (responses (Cached.run env evs).2)
  ∧ responses (Cached.step env st Cached.GetImages).2
    = [ok (JsonEntries (Cached.cachedImages st))]
  ∧ responses (Cached.step env st (Cached.GetFolder "a")).2
    = [ok (JsonEntries (default [] (Cached.cachedFolders st !! "a")))]
  ∧ length (responses (Cached.run env evs).2) = 3.
Proof.
  cbv zeta. split; [reflexivity|].
  pose proof (cached_listing_never_fails TestStore.env
                [ Cached.GetImages; Cached.GetFolder "a";
                  Cached.Settle 1 (S3.Rejected TestStore.networkingError);
                  Cached.Settle 0 (S3.Rejected TestStore.networkingError);
                  Cached.GetFolder "a" ] "a" eq_refl) as (H1 & H2 & H3 & _).
  split; [exact H1|]. split; [exact H2|]. split; [exact H3|].
  vm_compute; reflexivity.
Defined.

(** ** The refresh timers *)

(** C8, counterexample.  The interval is the constant [45 * 1000] written in
    the two [setInterval] calls, which read nothing from the environment:
    setting a refresh interval there changes no timer, and under no
    environment does a timer get another interval. *)
Lemma refresh_interval_ignores_environment :
  let env' := <["REFRESH_INTERVAL" := "1000"]>
                (<["REFRESH_INTERVAL_MS" := "1000"]> TestStore.env) in
  timers (Cached.boot TestStore.env)
    = [(RefreshImagesCallback, 45000%N); (RefreshFoldersCallback, 45000%N)]
  ∧ timers (Cached.boot env') = timers (Cached.boot TestStore.env)
  ∧ (∀ env cb ms, (cb, ms) ∈ timers (Cached.boot env) → ms = 45000%N).
Proof.
  cbv zeta. split; [vm_compute; reflexivity|]. split; [vm_compute; reflexivity|].
  intros env cb ms. unfold Cached.boot.
  destruct (firstMissing env); simpl.
  - intros H. by apply elem_of_nil in H.
  - intros H;
      repeat (apply elem_of_cons in H as [H|H]; [by simplify_eq|]);
      by apply elem_of_nil in H.
Qed.

(** C8, amended.  When start-up passes the configuration check, the cached
    server registers two timers, both with the fixed interval of 45 seconds
    (45 * 1000 ms), whatever the environment holds; [server.js] registers
    none.  The first timer's callback starts a full refresh; the second's
    starts a refresh of every folder that has an entry in [cachedFolders] at
    that moment, once each, and of no other folder. *)
Theorem timers_refresh_every_45_seconds (env : Js.Env) (st : Cached.State) :
  timers (Cached.boot env)
    = match firstMissing env with
      | None => [ (RefreshImagesCallback, (45 * 1000)%N);
                  (RefreshFoldersCallback, (45 * 1000)%N) ]
      | Some _ => []
      end
  ∧ timers (Direct.boot env) = []
  ∧ Cached.step env st Cached.ImagesTimer
    = (Cached.withPending st (Cached.pending st ++ [Cached.RefreshImages]),
       [Send (Cached.taskCommand env Cached.RefreshImages)])
  ∧ Cached.step env st Cached.FoldersTimer
    = (Cached.withPending st
         (Cached.pending st
          ++ (Cached.RefreshFolder <$> Cached.objectKeys (Cached.cachedFolders st))),
       (λ folder, Send (Cached.taskCommand env (Cached.RefreshFolder folder)))
         <$> Cached.objectKeys (Cached.cachedFolders st))
  ∧ (∀ folder, folder ∈ Cached.objectKeys (Cached.cachedFolders st)
               ↔ is_Some (Cached.cachedFolders st !! folder))
  ∧ NoDup (Cached.objectKeys (Cached.cachedFolders st)).
Proof.
  split. { unfold Cached.boot. by destruct (firstMissing env). }
  split. { unfold Direct.boot. by destruct (firstMissing env). }
  split; [done|].
  split; [apply refreshFolders_eq|].
  split; [intros; apply elem_of_objectKeys|apply NoDup_objectKeys].
Qed.

(** ** Start-up *)

Lemma falsy_unsetOrEmpty (env : Js.Env) (name : string) :
  Js.falsy (env !! name) = true ↔ unsetOrEmpty env name.
Proof.
  unfold unsetOrEmpty, Js.falsy. destruct (env !! name) as [v|].
  - rewrite bool_decide_eq_true. split; [intros ->; by right|].
    intros [?|?]; by simplify_eq.
  - split; [by left|done].
Qed.

Lemma falsy_configured (env : Js.Env) (name : string) :
  Js.falsy (env !! name) = false ↔ configured env name.
Proof.
  unfold configured, Js.falsy. destruct (env !! name) as [v|].
  - rewrite bool_decide_eq_false. split; [intros ?; by exists v|].
    intros (w & ? & ?); by simplify_eq.
  - split; [done|]. by intros (w & ? & ?).
Qed.

(** The check stops at a required name that is unset or empty. *)
Lemma firstMissing_Some (env : Js.Env) (name : string) :
  firstMissing env = Some name → name ∈ requiredEnv ∧ unsetOrEmpty env name.
Proof.
  intros H. apply find_some in H as [Hin Hfalsy].
  split; [by apply list_elem_of_In|by apply falsy_unsetOrEmpty].
Qed.

(** It passes exactly when the four required values are set and not empty. *)
Lemma firstMissing_None (env : Js.Env) :
  firstMissing env = None ↔ ∀ name, name ∈ requiredEnv → configured env name.
Proof.
  split.
  - intros H name Hin. apply falsy_configured.
    eapply find_none in H; [exact H|]. by apply list_elem_of_In.
  - intros H. destruct (firstMissing env) as [name|] eqn:Hfind; [|done].
    apply firstMissing_Some in Hfind as [Hin Hmissing].
    apply falsy_unsetOrEmpty in Hmissing.
    apply H, falsy_configured in Hin. congruence.
Qed.

(** C9, counterexample.  All four required names are present in the
    environment, the bucket name as the empty string: the check reports the
    bucket name as missing and the process exits; no listener is bound. *)
Lemma empty_value_stops_startup :
  let env := <["AWS_BUCKET" := ""]> TestStore.env in
  Forall (λ name, is_Some (env !! name)) requiredEnv
  ∧ Cached.boot env
    = [ConsoleError (MissingEnvironmentVariable "AWS_BUCKET"); ProcessExit 1]
  ∧ Direct.boot env
    = [ConsoleError (MissingEnvironmentVariable "AWS_BUCKET"); ProcessExit 1]
  ∧ listeners (Cached.boot env) = []
  ∧ listeners (Direct.boot env) = [].
Proof.
  cbv zeta. split.
  - repeat constructor; eexists; vm_compute; reflexivity.
  - repeat split; vm_compute; reflexivity.
Qed.

(** C9, amended.  Both programs: when one of the four required values is
    unset or is the empty string, the script logs one diagnostic, naming such
    a value, and exits with code 1; it does nothing else, so no client is
    created, no refresh is started and no listener is bound.  When all four
    are set and not empty, the script neither logs a diagnostic nor exits,
    and its last statement binds the listener. *)
Theorem startup_checks_configuration (env : Js.Env) :
  ((∃ name, name ∈ requiredEnv ∧ unsetOrEmpty env name) →
   ∃ name, name ∈ requiredEnv ∧ unsetOrEmpty env name
     ∧ Cached.boot env
       = [ConsoleError (MissingEnvironmentVariable name); ProcessExit 1]
     ∧ Direct.boot env
       = [ConsoleError (MissingEnvironmentVariable name); ProcessExit 1])
  ∧ ((∀ name, name ∈ requiredEnv → configured env name) →
     exitCodes (Cached.boot env) = []
     ∧ diagnostics (Cached.boot env) = []
     ∧ listeners (Cached.boot env) = [listenPort env]
     ∧ last (Cached.boot env) = Some (Listen (listenPort env))
     ∧ exitCodes (Direct.boot env) = []
     ∧ diagnostics (Direct.boot env) = []
     ∧ listeners (Direct.boot env) = [listenPort env]
     ∧ last (Direct.boot env) = Some (Listen (listenPort env))).
Proof.
  split.
  - intros (name & Hin & Hmissing).
    destruct (firstMissing env) as [found|] eqn:Hfind.
    + exists found. destruct (firstMissing_Some _ _ Hfind) as [Hin' Hmissing'].
      unfold Cached.boot, Direct.boot. by rewrite Hfind.
    + exfalso. apply falsy_unsetOrEmpty in Hmissing.
      pose proof (proj1 (firstMissing_None env) Hfind name Hin) as Hc.
      apply falsy_configured in Hc. congruence.
  - intros Hall. apply firstMissing_None in Hall.
    unfold Cached.boot, Direct.boot. rewrite Hall. by repeat split.
Qed.

(** The secret key is not set: exit.  The example environment: listen on the
    default port. *)
Lemma startup_checks_configuration_witness :
  let env := delete "AWS_SECRET_KEY" TestStore.env in
  (∃ name, name ∈ requiredEnv ∧ unsetOrEmpty env name
     ∧ Cached.boot env
       = [ConsoleError (MissingEnvironmentVariable name); ProcessExit 1]
     ∧ Direct.boot env
       = [ConsoleError (MissingEnvironmentVariable name); ProcessExit 1])
  ∧ listeners (Cached.boot TestStore.env) = [PortNumber 5000%N]
  ∧ exitCodes (Cached.boot TestStore.env) = [].
Proof.
  cbv zeta. split.
  - apply (proj1 (startup_checks_configuration (delete "AWS_SECRET_KEY" TestStore.env))).
    exists "AWS_SECRET_KEY". split.
    + apply (bool_decide_eq_true_1 _). vm_compute; reflexivity.
    + left. vm_compute; reflexivity.
  - assert (∀ name, name ∈ requiredEnv → configured TestStore.env name) as Hall.
    { intros name Hin. apply falsy_configured.
      unfold requiredEnv in Hin.
      repeat (apply elem_of_cons in Hin as [->|Hin]; [vm_compute; reflexivity|]).
      by apply elem_of_nil in Hin. }
    destruct (proj2 (startup_checks_configuration TestStore.env) Hall)
      as (Hexit & _ & Hlisten & _).
    split; [exact Hlisten|exact Hexit].
Defined.

(** ** Further properties of the two programs *)

(** *** Requests and responses *)

Lemma sends_app (acts1 acts2 : list Action) :
  sends (acts1 ++ acts2) = sends acts1 ++ sends acts2.
Proof. unfold sends. by rewrite omap_app. Qed.

Lemma tally_app (p : LogLine → bool) (acts1 acts2 : list Action) :
  tally p (acts1 ++ acts2) = tally p acts1 + tally p acts2.
Proof.
  unfold tally, logged. by rewrite omap_app, List.filter_app, length_app.
Qed.

(** A batch of store calls: so many calls, no response, no log line. *)
Lemma only_sends {A} (cmd : A → S3.ListInput) (xs : list A) :
  sends ((λ x, Send (cmd x)) <$> xs) = cmd <$> xs
  ∧ responses ((λ x, Send (cmd x)) <$> xs) = []
  ∧ logged ((λ x, Send (cmd x)) <$> xs) = [].
Proof.
  induction xs as [|x xs (IH1 & IH2 & IH3)]; [done|].
  cbn. by rewrite <- IH1.
Qed.

Lemma responses_step_count (env : Js.Env) (st : Cached.State) (ev : Cached.Event) :
  length (responses (Cached.step env st ev).2) = if isRequest ev then 1 else 0.
Proof.
  destruct ev as [| |folder| | |i r]; [done|done| |done| |].
  - simpl. by destruct (Js.absent _).
  - change (Cached.step env st Cached.FoldersTimer)
      with (Cached.refreshFolders env st).
    rewrite refreshFolders_eq. simpl.
    by rewrite (proj1 (proj2 (only_sends _ _))).
  - by rewrite responses_settle.
Qed.

(** X1.  Every request is answered exactly once.  In the cached server the
    responses sent along any sequence of events, from any state, are as many
    as the requests among the events: a timer callback or a settling store
    call answers nobody, and no request is left without an answer.  In
    [server.js] a listing request gets exactly one response whether the store
    call succeeds or fails. *)
Theorem every_request_answered_once (env : Js.Env) (st : Cached.State)
    (evs : list Cached.Event) (send : S3.Store) (a : ListArgs) :
  length (responses (Cached.runFrom env st evs).2)
    = length (List.filter isRequest evs)
  ∧ length (responses (Direct.listing env send a)) = 1.
Proof.
  split.
  - revert st. induction evs as [|ev rest IH]; intros st; [done|].
    rewrite runFrom_cons_actions, responses_app, length_app, IH.
    rewrite responses_step_count. simpl. by destruct (isRequest ev).
  - unfold Direct.listing, Direct.listingBody, listObjects.
    by destruct (send (listObjectsCommand a)).
Qed.

(** *** Store calls and their outcomes *)

Lemma accounting_step (env : Js.Env) (st : Cached.State) (ev : Cached.Event) :
  let result := Cached.step env st ev in
  length (sends result.2) + length (Cached.pending st)
    = length (Cached.pending result.1)
      + tally isCachedLine result.2 + tally isFailedLine result.2
  ∧ tally isS3ErrorLine result.2 = tally isFailedLine result.2.
Proof.
  destruct ev as [| |folder| | |i r]; cbn zeta.
  - unfold tally. simpl. split; [lia|done].
  - unfold tally. simpl. split; [lia|done].
  - unfold tally. simpl. destruct (Js.absent _); simpl; [|split; [lia|done]].
    rewrite length_app. simpl. split; [lia|done].
  - unfold tally. simpl. rewrite length_app. simpl. split; [lia|done].
  - change (Cached.step env st Cached.FoldersTimer)
      with (Cached.refreshFolders env st).
    rewrite refreshFolders_eq. cbn [fst snd].
    destruct (only_sends (λ folder, Cached.taskCommand env (Cached.RefreshFolder folder))
                (Cached.objectKeys (Cached.cachedFolders st))) as (Hs & _ & Hl).
    unfold tally. rewrite Hs, Hl.
    unfold Cached.withPending; cbn [Cached.pending].
    rewrite length_app, !length_fmap. simpl. split; [lia|done].
  - unfold tally. simpl.
    destruct (Cached.pending st !! i) as [t|] eqn:Hi; [|simpl; split; [lia|done]].
    assert (length (delete i (Cached.pending st)) + 1 = length (Cached.pending st))
      as Hlen.
    { rewrite length_delete by done.
      apply lookup_lt_Some in Hi. lia. }
    destruct t as [|folder]; destruct r as [data|err]; simpl;
      (split; [lia|done]).
Qed.

Lemma accounting_runFrom (env : Js.Env) (evs : list Cached.Event) (st : Cached.State) :
  let result := Cached.runFrom env st evs in
  length (sends result.2) + length (Cached.pending st)
    = length (Cached.pending result.1)
      + tally isCachedLine result.2 + tally isFailedLine result.2
  ∧ tally isS3ErrorLine result.2 = tally isFailedLine result.2.
Proof.
  cbn zeta. revert st. induction evs as [|ev rest IH]; intros st.
  - unfold tally. simpl. split; [lia|done].
  - destruct (accounting_step env st ev) as [Hstep Herr].
    destruct (IH (Cached.step env st ev).1) as [Hrest Herr'].
    rewrite runFrom_cons, runFrom_cons_actions.
    rewrite sends_app, !tally_app, length_app. split; lia.
Qed.

(** X2.  No store call is lost and none is counted twice.  After start-up
    and any sequence of requests, timer callbacks and store replies, the
    calls sent to the store are as many as the calls still pending plus the
    refreshes that logged a cached count plus the refreshes that logged a
    failure; and every failure was logged twice, once by [listObjects]
    ("S3 Error:") and once by the refresh that caught it. *)
Theorem store_calls_accounted (env : Js.Env) (evs : list Cached.Event) :
  let result := Cached.run env evs in
  length (sends result.2)
    = length (Cached.pending result.1)
      + tally isCachedLine result.2 + tally isFailedLine result.2
  ∧ tally isS3ErrorLine result.2 = tally isFailedLine result.2.
Proof.
  cbn zeta. rewrite run_runFrom, run_actions, sends_app, !tally_app.
  destruct (accounting_runFrom env evs (Cached.start env).1) as [Hcalls Herr].
  change (length (Cached.pending (Cached.start env).1)) with 1 in Hcalls.
  change (sends (Cached.start env).2)
    with [listObjectsCommand (bucketArgs env)].
  change (tally isCachedLine (Cached.start env).2) with 0.
  change (tally isFailedLine (Cached.start env).2) with 0.
  change (tally isS3ErrorLine (Cached.start env).2) with 0.
  rewrite length_app. cbn [length]. split; lia.
Qed.

(** *** Folder entries stay *)

Lemma step_keeps_entries (env : Js.Env) (st : Cached.State) (ev : Cached.Event)
    (folder : string) :
  is_Some (Cached.cachedFolders st !! folder) →
  is_Some (Cached.cachedFolders (Cached.step env st ev).1 !! folder).
Proof.
  intros Hsome.
  destruct ev as [| |g| | |i [data|err]];
    lazymatch goal with
    | |- context [Cached.Settle _ (S3.Resolved _)] => idtac
    | |- context [Cached.step env st ?e] =>
        destruct (step_frame env st e) as [_ ->];
        [intros ? ?; discriminate | exact Hsome]
    end.
  simpl. destruct (Cached.pending st !! i) as [[|g]|]; simpl; try done.
  unfold Js.set. case_bool_decide; [done|].
  apply lookup_insert_is_Some.
  destruct (decide (g = folder)); [by left|by right].
Qed.

Lemma runFrom_keeps_entries (env : Js.Env) (evs : list Cached.Event)
    (st : Cached.State) (folder : string) :
  is_Some (Cached.cachedFolders st !! folder) →
  is_Some (Cached.cachedFolders (Cached.runFrom env st evs).1 !! folder).
Proof.
  revert st. induction evs as [|ev rest IH]; intros st Hsome; [done|].
  rewrite runFrom_cons. by apply IH, step_keeps_entries.
Qed.

Lemma toEntries_no_keys (env : Js.Env) (data : S3.ListOutput) :
  storeKeys data = [] → toEntries env data = [].
Proof.
  unfold storeKeys, toEntries. destruct (S3.Contents data) as [files|]; [|done].
  simpl. intros H. by apply fmap_nil_inv in H as ->.
Qed.

(** X3.  A folder that has an entry keeps one for the rest of the process
    (nothing deletes from [cachedFolders]), and from then on a request for it
    is answered with the cached array, sends nothing to the store and leaves
    the state as it is, whatever requests, timers and store replies, failed
    or not, came in between. *)
Theorem cached_folder_stays_cached (env : Js.Env) (st : Cached.State)
    (evs : list Cached.Event) (folder : string) :
  is_Some (Cached.cachedFolders st !! folder) →
  let st' := (Cached.runFrom env st evs).1 in
  ∃ l, Cached.cachedFolders st' !! folder = Some l
       ∧ Cached.step env st' (Cached.GetFolder folder)
         = (st', [Respond (ok (JsonEntries l))]).
Proof.
  intros Hsome st'.
  destruct (runFrom_keeps_entries env evs st folder Hsome) as [l Hl].
  exists l. split; [done|]. by apply populated_folder_served.
Qed.

(** Folder a is populated; then the store goes down, a tick refreshes the
    folder and the full listing, both refreshes fail: the folder is still
    served from the cache. *)
Lemma cached_folder_stays_cached_witness :
  let env := TestStore.env in
  let store := TestStore.paged TestStore.keysAB in
  let st := (Cached.run env
               [ Cached.GetFolder "a";
                 Cached.Settle 1
                   (store (Cached.taskCommand env (Cached.RefreshFolder "a"))) ]).1 in
  let evs := [ Cached.FoldersTimer; Cached.ImagesTimer;
               Cached.Settle 1 (S3.Rejected TestStore.networkingError);
               Cached.Settle 1 (S3.Rejected TestStore.networkingError) ] in
  let st' := (Cached.runFrom env st evs).1 in
  is_Some (Cached.cachedFolders st !! "a")
  ∧ ∃ l, Cached.cachedFolders st' !! "a" = Some l
         ∧ Cached.step env st' (Cached.GetFolder "a")
           = (st', [Respond (ok (JsonEntries l))]).
Proof.
  cbv zeta.
  assert (is_Some
            (Cached.cachedFolders
               (Cached.run TestStore.env
                  [ Cached.GetFolder "a";
                    Cached.Settle 1
                      (TestStore.paged TestStore.keysAB
                         (Cached.taskCommand TestStore.env
                            (Cached.RefreshFolder "a"))) ]).1 !! "a")) as Hsome.
  { eexists. vm_compute. reflexivity. }
  split; [exact Hsome|].
  exact (cached_folder_stays_cached TestStore.env _
           [ Cached.FoldersTimer; Cached.ImagesTimer;
             Cached.Settle 1 (S3.Rejected TestStore.networkingError);
             Cached.Settle 1 (S3.Rejected TestStore.networkingError) ]
           "a" Hsome).
Defined.

(** X4.  A folder whose listing comes back without any key is cached as the
    empty array, and the empty array counts as present: the next request for
    it is answered from the cache and starts no new population. *)
Theorem empty_folder_is_cached (env : Js.Env) (evs : list Cached.Event) (i : nat)
    (folder : string) (data : S3.ListOutput) :
  let st := (Cached.run env evs).1 in
  Cached.pending st !! i = Some (Cached.RefreshFolder folder) →
  storeKeys data = [] →
  let st' := (Cached.step env st (Cached.Settle i (S3.Resolved data))).1 in
  Cached.cachedFolders st' !! folder = Some []
  ∧ Cached.step env st' (Cached.GetFolder folder)
    = (st', [Respond (ok (JsonEntries []))])
  ∧ sends (Cached.step env st' (Cached.GetFolder folder)).2 = [].
Proof.
  intros st Hi Hempty st'.
  assert (Cached.cachedFolders st' !! folder = Some []) as Hl.
  { subst st'. rewrite (population_fills_folder env st i folder data)
      by (done || apply plainNames_run).
    by rewrite toEntries_no_keys. }
  split; [done|].
  by rewrite (populated_folder_served env st' folder []).
Qed.

(** Folder drafts holds nothing: its first request starts a population, the
    store answers with no [Contents], and the second request sends nothing. *)
Lemma empty_folder_is_cached_witness :
  let env := TestStore.env in
  let data := TestStore.emptyPage in
  let st := (Cached.run env [Cached.GetFolder "drafts"]).1 in
  let st' := (Cached.step env st (Cached.Settle 1 (S3.Resolved data))).1 in
  Cached.pending st !! 1 = Some (Cached.RefreshFolder "drafts")
  ∧ storeKeys data = []
  ∧ sends (Cached.step env st (Cached.GetFolder "drafts")).2
    = [listObjectsCommand (folderArgs env "drafts")]
  ∧ Cached.cachedFolders st' !! "drafts" = Some []
  ∧ sends (Cached.step env st' (Cached.GetFolder "drafts")).2 = [].
Proof.
  cbv zeta. split; [reflexivity|]. split; [reflexivity|].
  split; [vm_compute; reflexivity|].
  destruct (empty_folder_is_cached TestStore.env [Cached.GetFolder "drafts"] 1
              "drafts" TestStore.emptyPage eq_refl eq_refl) as (H1 & _ & H3).
  split; [exact H1|exact H3].
Defined.

Lemma folder_tick_cost (env : Js.Env) (st : Cached.State) :
  length (sends (Cached.step env st Cached.FoldersTimer).2)
  = size (Cached.cachedFolders st).
Proof.
  change (Cached.step env st Cached.FoldersTimer)
    with (Cached.refreshFolders env st).
  rewrite refreshFolders_eq. cbn [fst snd].
  rewrite (proj1 (only_sends _ _)), length_fmap.
  unfold Cached.objectKeys. by rewrite length_fmap, length_map_to_list.
Qed.

(** X5.  The second timer costs one store call per cached folder, and the
    number of cached folders never goes down: whatever happens between two
    ticks, the later tick sends at least as many calls as the earlier one
    would have. *)
Theorem folder_tick_cost_never_shrinks (env : Js.Env) (st : Cached.State)
    (evs : list Cached.Event) :
  let later := (Cached.runFrom env st evs).1 in
  length (sends (Cached.step env st Cached.FoldersTimer).2)
    = size (Cached.cachedFolders st)
  ∧ size (Cached.cachedFolders st) ≤ size (Cached.cachedFolders later)
  ∧ length (sends (Cached.step env st Cached.FoldersTimer).2)
    ≤ length (sends (Cached.step env later Cached.FoldersTimer).2).
Proof.
  intros later.
  pose proof (folder_tick_cost env) as Hcost.
  assert (size (Cached.cachedFolders st) ≤ size (Cached.cachedFolders later))
    as Hgrow.
  { rewrite <- !size_dom. apply subseteq_size. intros k Hk.
    apply elem_of_dom. apply runFrom_keeps_entries. by apply elem_of_dom. }
  split; [apply Hcost|]. split; [done|]. by rewrite !Hcost.
Qed.

(** *** Entries mirror the store's page *)

Lemma append_cancel (s a b : string) : s +:+ a = s +:+ b → a = b.
Proof. induction s as [|c s IH]; simpl; [done|]. intros [= H]. by apply IH. Qed.

Lemma objectUrl_inj (env : Js.Env) (k1 k2 : string) :
  objectUrl env k1 = objectUrl env k2 → k1 = k2.
Proof. unfold objectUrl. intros H. by repeat apply append_cancel in H. Qed.

Lemma keys_toEntries (env : Js.Env) (data : S3.ListOutput) :
  key <$> toEntries env data = storeKeys data.
Proof.
  unfold toEntries, storeKeys. destruct (S3.Contents data) as [files|]; [|done].
  simpl. by rewrite <- list_fmap_compose.
Qed.

(** X6.  The entries made from a page mirror it: one entry per object of the
    page, in the page's order, each with the object's key unchanged; and the
    url identifies the key, two entries made under one configuration have the
    same url only if they have the same key.  This is what a direct listing
    of [server.js] sends and what a successful full refresh caches. *)
Theorem entries_mirror_the_page (env : Js.Env) (send : S3.Store) (a : ListArgs)
    (st : Cached.State) (data : S3.ListOutput) :
  key <$> toEntries env data = storeKeys data
  ∧ length (toEntries env data) = length (storeKeys data)
  ∧ (∀ k1 k2, objectUrl env k1 = objectUrl env k2 ↔ k1 = k2)
  ∧ (∀ e1 e2, e1 ∈ toEntries env data → e2 ∈ toEntries env data →
              url e1 = url e2 → e1 = e2)
  ∧ ((λ l : list Entry, key <$> l) <$> sentEntries (Direct.listing env send a))
    = match send (listObjectsCommand a) return list (list string) with
      | S3.Resolved page => [storeKeys page]
      | S3.Rejected _ => []
      end
  ∧ key <$> Cached.cachedImages
              (Cached.refreshImagesSettle env st (S3.Resolved data)).1
    = storeKeys data.
Proof.
  split; [apply keys_toEntries|].
  split; [by rewrite <- (keys_toEntries env), length_fmap|].
  split; [intros k1 k2; split; [apply objectUrl_inj|by intros ->]|].
  split.
  { intros e1 e2 H1 H2 Hurl.
    pose proof (toEntries_derived env data) as Hd.
    rewrite Forall_forall in Hd.
    pose proof (Hd _ H1) as Hd1. pose proof (Hd _ H2) as Hd2.
    unfold derived in *. rewrite Hd1, Hd2 in Hurl.
    apply objectUrl_inj in Hurl.
    destruct e1 as [k1 u1], e2 as [k2 u2]. simpl in *. congruence. }
  split; [|apply keys_toEntries].
  rewrite sentEntries_listing. destruct (send (listObjectsCommand a)); [|done].
  simpl. by rewrite keys_toEntries.
Qed.

(** *** The start-up diagnostic *)

Lemma find_first {A} (f : A → bool) (l : list A) (x : A) :
  List.find f l = Some x →
  ∃ before rest, l = before ++ x :: rest ∧ f x = true
                 ∧ Forall (λ y, f y = false) before.
Proof.
  induction l as [|y l IH]; simpl; [done|].
  destruct (f y) eqn:Hy.
  - intros [= ->]. by exists [], l.
  - intros H. destruct (IH H) as (before & rest & -> & Hx & Hbefore).
    exists (y :: before), rest. split; [done|]. split; [done|].
    by constructor.
Qed.

(** X7.  When start-up stops on the configuration check, both programs log
    one diagnostic only, and it names the first required value, in the order
    bucket, region, access key, secret key, that is unset or empty: the
    required values before it are all set and not empty, and those after it
    are not looked at. *)
Theorem diagnostic_names_first_missing (env : Js.Env) (name : string) :
  In (ConsoleError (MissingEnvironmentVariable name)) (Cached.boot env) →
  ∃ before rest,
    requiredEnv = before ++ name :: rest
    ∧ unsetOrEmpty env name
    ∧ Forall (configured env) before
    ∧ diagnostics (Cached.boot env) = [MissingEnvironmentVariable name]
    ∧ Direct.boot env = Cached.boot env.
Proof.
  unfold Cached.boot, Direct.boot.
  destruct (firstMissing env) as [found|] eqn:Hfind.
  - intros [[= ->]|[?|[]]]; [|done].
    destruct (find_first _ _ _ Hfind) as (before & rest & Hsplit & Hx & Hbefore).
    exists before, rest. split; [done|].
    split; [by apply falsy_unsetOrEmpty|]. split; [|done].
    eapply Forall_impl; [exact Hbefore|]. intros y. apply falsy_configured.
  - simpl. intros [?|[?|[?|[?|[?|[?|[?|[]]]]]]]]; discriminate.
Qed.

(** Region and secret key are both unset: the diagnostic names the region. *)
Lemma diagnostic_names_first_missing_witness :
  let env := delete "AWS_REGION" (delete "AWS_SECRET_KEY" TestStore.env) in
  In (ConsoleError (MissingEnvironmentVariable "AWS_REGION")) (Cached.boot env)
  ∧ unsetOrEmpty env "AWS_SECRET_KEY"
  ∧ diagnostics (Cached.boot env) = [MissingEnvironmentVariable "AWS_REGION"].
Proof.
  cbv zeta.
  assert (In (ConsoleError (MissingEnvironmentVariable "AWS_REGION"))
             (Cached.boot (delete "AWS_REGION"
                             (delete "AWS_SECRET_KEY" TestStore.env)))) as Hin.
  { left. vm_compute. reflexivity. }
  split; [exact Hin|]. split; [left; vm_compute; reflexivity|].
  destruct (diagnostic_names_first_missing _ _ Hin) as (? & ? & _ & _ & _ & H & _).
  exact H.
Defined.

(** *** Folder listings of [server.js] *)

Lemma after_subset (token : string) (ks : list string) (k : string) :
  k ∈ TestStore.after token ks → k ∈ ks.
Proof.
  induction ks as [|k' ks IH]; simpl; [done|].
  case_bool_decide as Htoken; intros Hk; apply elem_of_cons; right;
    [done|by apply IH].
Qed.

(** The paginated test store returns only keys under the requested prefix. *)
Lemma paged_honoursPrefix (keys : list string) :
  honoursPrefix (TestStore.paged keys).
Proof.
  intros req data k Hsend Hk. unfold TestStore.paged in Hsend.
  injection Hsend as <-. unfold storeKeys in Hk. cbn [S3.Contents] in Hk.
  set (matching := List.filter (String.prefix (S3.Prefix req)) keys) in *.
  set (rest := match S3.ContinuationToken req with
               | Some token => TestStore.after token matching
               | None => matching
               end) in *.
  set (page := take (S3.MaxKeys req) rest) in *.
  assert (∀ l : list string, S3.Key <$> map S3.Build_Object l = l) as Hkeys.
  { induction l as [|x l IH]; [done|]. cbn. by rewrite IH. }
  assert (k ∈ page) as Hpage.
  { destruct page as [|k0 page']; [by apply elem_of_nil in Hk|].
    change (k ∈ S3.Key <$> map S3.Build_Object (k0 :: page')) in Hk.
    by rewrite Hkeys in Hk. }
  apply subseteq_take in Hpage.
  assert (k ∈ matching) as Hmatch.
  { subst rest. destruct (S3.ContinuationToken req); [|done].
    by eapply after_subset. }
  apply list_elem_of_In, List.filter_In in Hmatch. by destruct Hmatch.
Qed.

(** X8.  [server.js] asks for a folder with the prefix [folderPath + "/"].
    So against a store that returns only keys under the prefix it is given,
    every entry of the answer to GET /api/images/<folderPath> has a key that
    begins with [folderPath/]: a folder never shows the objects of another
    folder whose name merely starts the same way. *)
Theorem folder_listing_stays_in_folder (env : Js.Env) (send : S3.Store)
    (folderPath : string) :
  honoursPrefix send →
  Forall (Forall (λ e, String.prefix (folderPath +:+ "/") (key e) = true))
    (sentEntries (Direct.getFolder env send folderPath)).
Proof.
  intros Hstore. unfold Direct.getFolder. rewrite sentEntries_listing.
  destruct (send (listObjectsCommand (folderArgs env folderPath)))
    as [data|err] eqn:Hsend; [|constructor].
  repeat constructor. apply Forall_forall. intros e He.
  apply (Hstore _ _ _ Hsend). rewrite <- (keys_toEntries env).
  apply list_elem_of_fmap. by exists e.
Qed.

(** A bucket with folders a and ab: the listing of a has the one key of a. *)
Lemma folder_listing_stays_in_folder_witness :
  let store := TestStore.paged ["a/1.jpg"; "ab/2.jpg"] in
  honoursPrefix store
  ∧ (λ l : list Entry, key <$> l) <$> sentEntries (Direct.getFolder TestStore.env store "a")
    = [["a/1.jpg"]]
  ∧ Forall (Forall (λ e, String.prefix "a/" (key e) = true))
      (sentEntries (Direct.getFolder TestStore.env store "a")).
Proof.
  cbv zeta. split; [apply paged_honoursPrefix|].
  split; [vm_compute; reflexivity|].
  exact (folder_listing_stays_in_folder TestStore.env
           (TestStore.paged ["a/1.jpg"; "ab/2.jpg"]) "a"
           (paged_honoursPrefix _)).
Defined.

(** *** Replies that arrive out of order *)

(** X9.  The cache holds the listing of the full refresh that settled last,
    not of the one that was started last.  When two full refreshes are
    pending and the later one settles first, the reply to the earlier one,
    arriving afterwards, replaces the newer listing with the older one. *)
Theorem late_reply_overwrites_newer_listing (env : Js.Env) (st : Cached.State)
    (i j : nat) (older newer : S3.ListOutput) :
  i < j →
  Cached.pending st !! i = Some Cached.RefreshImages →
  Cached.pending st !! j = Some Cached.RefreshImages →
  let st1 := (Cached.step env st (Cached.Settle j (S3.Resolved newer))).1 in
  let st2 := (Cached.step env st1 (Cached.Settle i (S3.Resolved older))).1 in
  Cached.cachedImages st1 = toEntries env newer
  ∧ Cached.cachedImages st2 = toEntries env older
  ∧ sentEntries (Cached.step env st2 Cached.GetImages).2 = [toEntries env older].
Proof.
  intros Hlt Hi Hj st1 st2.
  assert (Cached.cachedImages st1 = toEntries env newer) as H1.
  { by apply settle_full_refresh. }
  assert (Cached.pending st1 !! i = Some Cached.RefreshImages) as Hi1.
  { subst st1. simpl. rewrite Hj. simpl. by rewrite list_lookup_delete_lt. }
  assert (Cached.cachedImages st2 = toEntries env older) as H2.
  { by apply settle_full_refresh. }
  split; [done|]. split; [done|]. simpl. by rewrite H2.
Qed.

(** The start-up refresh is still pending when the timer starts a second
    one.  The second settles with the three keys of the bucket, then the
    first settles with the empty page it was given before the upload. *)
Lemma late_reply_overwrites_newer_listing_witness :
  let env := TestStore.env in
  let st := (Cached.run env [Cached.ImagesTimer]).1 in
  let st1 := (Cached.step env st (Cached.Settle 1 (S3.Resolved TestStore.pageAB))).1 in
  let st2 := (Cached.step env st1 (Cached.Settle 0 (S3.Resolved TestStore.emptyPage))).1 in
  0 < 1
  ∧ Cached.pending st !! 0 = Some Cached.RefreshImages
  ∧ Cached.pending st !! 1 = Some Cached.RefreshImages
  ∧ length (Cached.cachedImages st1) = 3
  ∧ Cached.cachedImages st2 = toEntries env TestStore.emptyPage
  ∧ Cached.cachedImages st2 = [].
Proof.
  cbv zeta. split; [lia|]. split; [reflexivity|]. split; [reflexivity|].
  split; [vm_compute; reflexivity|].
  destruct (late_reply_overwrites_newer_listing TestStore.env
              (Cached.run TestStore.env [Cached.ImagesTimer]).1 0 1
              TestStore.emptyPage TestStore.pageAB
              ltac:(lia) eq_refl eq_refl) as (_ & H2 & _).
  split; [exact H2|]. vm_compute. reflexivity.
Defined.

(** *** Names of Object.prototype *)

(** X10.  No request can make the cached server write under a name that
    [Object.prototype] defines.  After any sequence of requests, timer
    callbacks and store replies, such a name has no entry in
    [cachedFolders] and no refresh of it is pending; so the assignment
    [cachedFolders[folder] = ...] of a settling refresh always creates or
    replaces an own property, and never reaches the [__proto__] setter. *)
Theorem inherited_names_never_written (env : Js.Env) (evs : list Cached.Event)
    (name : string) :
  Js.inherited name = true →
  let st := (Cached.run env evs).1 in
  Cached.cachedFolders st !! name = None
  ∧ (Cached.RefreshFolder name ∉ Cached.pending st)
  ∧ (Cached.RefreshFolder "__proto__" ∉ Cached.pending st)
  ∧ (∀ i folder v,
       Cached.pending st !! i = Some (Cached.RefreshFolder folder) →
       Js.set (Cached.cachedFolders st) folder v
       = <[folder := v]> (Cached.cachedFolders st)).
Proof.
  intros Hname st.
  pose proof (plainNames_run env evs) as Hplain.
  destruct Hplain as [Hpending Hcache].
  split.
  { destruct (Cached.cachedFolders st !! name) eqn:Hl; [|done].
    specialize (Hcache name (mk_is_Some _ _ Hl)). congruence. }
  split; [intros Hin; apply Hpending in Hin; congruence|].
  split; [intros Hin; by apply Hpending in Hin|].
  intros i folder v Hi. eapply set_plain; [|exact Hi]. by split.
Qed.

(** Requests for __proto__ and toString, between two timer ticks. *)
Lemma inherited_names_never_written_witness :
  let env := TestStore.env in
  let evs := [ Cached.GetFolder "__proto__"; Cached.FoldersTimer;
               Cached.GetFolder "toString"; Cached.GetFolder "__proto__";
               Cached.FoldersTimer ] in
  let st := (Cached.run env evs).1 in
  Js.inherited "__proto__" = true
  ∧ Cached.cachedFolders st !! "__proto__" = None
  ∧ (Cached.RefreshFolder "__proto__" ∉ Cached.pending st).
Proof.
  cbv zeta. split; [reflexivity|].
  destruct (inherited_names_never_written TestStore.env
              [ Cached.GetFolder "__proto__"; Cached.FoldersTimer;
                Cached.GetFolder "toString"; Cached.GetFolder "__proto__";
                Cached.FoldersTimer ] "__proto__" eq_refl) as (H1 & H2 & _).
  split; [exact H1|exact H2].
Defined.

(** *** A population that fails *)

Lemma no_refresh_outside_keys (folder : string) (ks : list string) :
  folder ∉ ks →
  refreshesOf folder (Cached.RefreshFolder <$> ks) = 0.
Proof.
  unfold refreshesOf. induction ks as [|k ks IH]; [done|].
  intros Hnot. apply not_elem_of_cons in Hnot as [Hne Hnot].
  cbn. case_bool_decide as Heq; [by simplify_eq|]. by apply IH.
Qed.

(** X11.  A first population that fails leaves no trace: the state after the
    failure is the state before the request.  The folder still has no entry,
    so the timer, which walks the keys of [cachedFolders], does not retry it;
    only the next request for the folder starts a new population. *)
Theorem failed_population_waits_for_request (env : Js.Env) (st : Cached.State)
    (folder : string) (err : S3.Error) :
  Cached.cachedFolders st !! folder = None →
  Js.inherited folder = false →
  let st1 := (Cached.step env st (Cached.GetFolder folder)).1 in
  let st2 := (Cached.step env st1
                (Cached.Settle (length (Cached.pending st)) (S3.Rejected err))).1 in
  st2 = st
  ∧ refreshesOf folder (Cached.pending (Cached.step env st2 Cached.FoldersTimer).1)
    = refreshesOf folder (Cached.pending st2)
  ∧ sends (Cached.step env st2 (Cached.GetFolder folder)).2
    = [listObjectsCommand (folderArgs env folder)].
Proof.
  intros Hnone Hplain st1 st2.
  assert (st2 = st) as ->.
  { subst st2 st1. rewrite first_request_populates by done.
    cbn [fst Cached.step Cached.withPending Cached.pending].
    rewrite list_lookup_middle by done.
    rewrite (delete_middle (Cached.pending st) []), app_nil_r.
    by destruct st. }
  split; [done|]. split.
  - change (Cached.step env st Cached.FoldersTimer)
      with (Cached.refreshFolders env st).
    rewrite refreshFolders_eq. cbn [fst Cached.withPending Cached.pending].
    unfold refreshesOf at 1. rewrite List.filter_app, length_app.
    fold (refreshesOf folder (Cached.pending st)).
    fold (refreshesOf folder
            (Cached.RefreshFolder <$> Cached.objectKeys (Cached.cachedFolders st))).
    rewrite no_refresh_outside_keys; [lia|].
    rewrite elem_of_objectKeys, Hnone. by intros [? ?].
  - by rewrite first_request_populates.
Qed.

(** Folder a is asked for while the store is down. *)
Lemma failed_population_waits_for_request_witness :
  let env := TestStore.env in
  let st := (Cached.start env).1 in
  let st1 := (Cached.step env st (Cached.GetFolder "a")).1 in
  let st2 := (Cached.step env st1
                (Cached.Settle 1 (S3.Rejected TestStore.networkingError))).1 in
  Cached.cachedFolders st !! "a" = None
  ∧ Js.inherited "a" = false
  ∧ st2 = st
  ∧ sends (Cached.step env st2 Cached.FoldersTimer).2 = []
  ∧ sends (Cached.step env st2 (Cached.GetFolder "a")).2
    = [listObjectsCommand (folderArgs env "a")].
Proof.
  cbv zeta. split; [reflexivity|]. split; [reflexivity|].
  destruct (failed_population_waits_for_request TestStore.env
              (Cached.start TestStore.env).1 "a" TestStore.networkingError
              eq_refl eq_refl) as (H1 & _ & H3).
  split; [exact H1|]. split; [vm_compute; reflexivity|exact H3].
Defined.

(** *** Ticks while the store is slow *)

Lemma one_refresh_per_key (folder : string) (ks : list string) :
  NoDup ks → folder ∈ ks →
  refreshesOf folder (Cached.RefreshFolder <$> ks) = 1.
Proof.
  induction 1 as [|k ks Hfresh Hnodup IH]; intros Hin;
    [by apply elem_of_nil in Hin|].
  apply elem_of_cons in Hin as [->|Hin].
  - pose proof (no_refresh_outside_keys k ks Hfresh) as Hrest.
    unfold refreshesOf in *. cbn. rewrite bool_decide_eq_true_2 by done.
    cbn. by rewrite Hrest.
  - unfold refreshesOf in *. cbn.
    rewrite bool_decide_eq_false_2; [by apply IH|].
    intros [= ->]. done.
Qed.

Lemma tick_adds_one_refresh (env : Js.Env) (st : Cached.State) (folder : string) :
  is_Some (Cached.cachedFolders st !! folder) →
  refreshesOf folder (Cached.pending (Cached.step env st Cached.FoldersTimer).1)
  = refreshesOf folder (Cached.pending st) + 1.
Proof.
  intros Hsome.
  change (Cached.step env st Cached.FoldersTimer)
    with (Cached.refreshFolders env st).
  rewrite refreshFolders_eq. cbn [fst Cached.withPending Cached.pending].
  unfold refreshesOf at 1. rewrite List.filter_app, length_app.
  fold (refreshesOf folder (Cached.pending st)).
  fold (refreshesOf folder
          (Cached.RefreshFolder <$> Cached.objectKeys (Cached.cachedFolders st))).
  rewrite one_refresh_per_key; [done|apply NoDup_objectKeys|].
  by apply elem_of_objectKeys.
Qed.

(** X12.  The folder timer does not wait for the refresh it started before.
    Each tick starts exactly one more refresh of every cached folder, so
    after [n] ticks during which no store call settles, [n] more refreshes of
    the folder are pending and [n] times the number of cached folders calls
    have gone to the store. *)
Theorem ticks_pile_up_refreshes (env : Js.Env) (st : Cached.State)
    (folder : string) (n : nat) :
  is_Some (Cached.cachedFolders st !! folder) →
  let result := Cached.runFrom env st (replicate n Cached.FoldersTimer) in
  refreshesOf folder (Cached.pending result.1)
    = refreshesOf folder (Cached.pending st) + n
  ∧ length (sends result.2) = n * size (Cached.cachedFolders st)
  ∧ Cached.cachedFolders result.1 = Cached.cachedFolders st.
Proof.
  intros Hsome. cbn zeta. revert st Hsome.
  induction n as [|n IH]; intros st Hsome.
  - simpl. split; [lia|done].
  - cbn [replicate].
    rewrite runFrom_cons, runFrom_cons_actions, sends_app, length_app.
    destruct (step_frame env st Cached.FoldersTimer ltac:(intros ? ?; discriminate))
      as [_ Hfolders].
    destruct (IH (Cached.step env st Cached.FoldersTimer).1) as (Hn & Hsends & Hsame).
    { by rewrite Hfolders. }
    rewrite Hn, Hsends, Hsame, Hfolders, tick_adds_one_refresh by done.
    rewrite folder_tick_cost. split; [lia|]. split; [lia|done].
Qed.

(** Folders a and b are cached; three ticks go by without a reply. *)
Lemma ticks_pile_up_refreshes_witness :
  let env := TestStore.env in
  let store := TestStore.paged TestStore.keysAB in
  let st := (Cached.run env
               [ Cached.GetFolder "a"; Cached.GetFolder "b";
                 Cached.Settle 1
                   (store (Cached.taskCommand env (Cached.RefreshFolder "a")));
                 Cached.Settle 1
                   (store (Cached.taskCommand env (Cached.RefreshFolder "b"))) ]).1 in
  let result := Cached.runFrom env st (replicate 3 Cached.FoldersTimer) in
  is_Some (Cached.cachedFolders st !! "a")
  ∧ refreshesOf "a" (Cached.pending st) = 0
  ∧ refreshesOf "a" (Cached.pending result.1) = 0 + 3
  ∧ length (sends result.2) = 3 * size (Cached.cachedFolders st)
  ∧ size (Cached.cachedFolders st) = 2.
Proof.
  cbv zeta.
  assert (is_Some
            (Cached.cachedFolders
               (Cached.run TestStore.env
                  [ Cached.GetFolder "a"; Cached.GetFolder "b";
                    Cached.Settle 1
                      (TestStore.paged TestStore.keysAB
                         (Cached.taskCommand TestStore.env (Cached.RefreshFolder "a")));
                    Cached.Settle 1
                      (TestStore.paged TestStore.keysAB
                         (Cached.taskCommand TestStore.env (Cached.RefreshFolder "b")))
                  ]).1 !! "a")) as Hsome.
  { eexists. vm_compute. reflexivity. }
  split; [exact Hsome|]. split; [vm_compute; reflexivity|].
  destruct (ticks_pile_up_refreshes TestStore.env _ "a" 3 Hsome) as (H1 & H2 & _).
  split; [|split; [exact H2|vm_compute; reflexivity]].
  etransitivity; [exact H1|]. vm_compute. reflexivity.
Defined.
